(** * PricingCalendar: a shallow embedding of [PricingCalendar.py]

    The pricing pipeline of the script is embedded function by function:
    [extract_monthly_totals], [load_dispatch] (with its inner
    [infer_complexity]), [get_season], [classify_band] and [build_calendar].

    Modelling conventions.
    - A Python exception is a value of [exn]; a function that may raise
      returns a [result].
    - A float ([float], [numpy.float64]) is an [npfloat]: an exact rational
      or one of the IEEE special values.  Arithmetic on the finite values is
      exact, so the model agrees with binary64 as long as no rounding
      decides a comparison; the special values follow IEEE (every comparison
      with NaN is false).
    - An integer is a [Z].  The totals of the pressure map carry their
      dynamic type ([PyInt] for a plain [int], [NpInt64] for the
      [numpy.int64] that [Series.sum] returns), because [/] behaves
      differently on the two when the divisor is zero.
    - A table cell is a string or the missing value NaN; a number in a cell
      is represented by its printed form.
    - [datetime] dates are triples ordered through their proleptic Gregorian
      ordinal, computed as the [datetime] module does. *)

From Stdlib Require Import ZArith QArith Qround List String Ascii Bool Lia.
From Stdlib Require Import DecimalString.
From Stdlib Require Import Permutation Lqa.
Import ListNotations.
Open Scope string_scope.
Open Scope Z_scope.

(** ** Exceptions and results *)

Inductive exn : Type :=
| IndexError | KeyError | AttributeError | OverflowError
| ValueError | ZeroDivisionError.

Inductive result (A : Type) : Type :=
| Ok (a : A)
| Raise (e : exn).
Arguments Ok {A} a.
Arguments Raise {A} e.

Definition bind {A B : Type} (m : result A) (k : A -> result B) : result B :=
  match m with
  | Ok a => k a
  | Raise e => Raise e
  end.

Notation "x <- m ;; k" := (bind m (fun x => k))
  (at level 61, m at next level, right associativity).

(** [for x in xs: ys.append(f x)], stopping at the first exception. *)
Fixpoint mapM {A B : Type} (f : A -> result B) (xs : list A) : result (list B) :=
  match xs with
  | [] => Ok []
  | x :: xs' => y <- f x ;; ys <- mapM f xs' ;; Ok (y :: ys)
  end.

(** ** Floats *)

Inductive npfloat : Type :=
| Finite (q : Q)
| PosInf
| NegInf
| NaN.

Definition of_int (z : Z) : npfloat := Finite (inject_Z z).

(** [x >= y] *)
Definition float_ge (x y : npfloat) : bool :=
  match x, y with
  | NaN, _ | _, NaN => false
  | Finite a, Finite b => Qle_bool b a
  | PosInf, _ => true
  | _, NegInf => true
  | _, _ => false
  end.

(** [x == y] *)
Definition float_eq (x y : npfloat) : bool :=
  match x, y with
  | Finite a, Finite b => Qeq_bool a b
  | PosInf, PosInf => true
  | NegInf, NegInf => true
  | _, _ => false
  end.

(** [x + y] *)
Definition float_add (x y : npfloat) : npfloat :=
  match x, y with
  | NaN, _ | _, NaN => NaN
  | Finite a, Finite b => Finite (Qred (a + b))
  | PosInf, NegInf | NegInf, PosInf => NaN
  | PosInf, _ | _, PosInf => PosInf
  | NegInf, _ | _, NegInf => NegInf
  end.

(** ** The band classifier *)

(** The dict literal that [build_calendar] passes to [classify_band]. *)
Record DayFeatures : Type := mkDayFeatures {
  Coach_Pressure : npfloat;
  Weekday : string;
  Season : string;
  Trips_Scheduled : Z;
  Avg_Complexity : npfloat
}.

Definition str_in (s : string) (l : list string) : bool :=
  existsb (String.eqb s) l.

(** Lines 64-69. *)
Definition pressure_points (p : npfloat) : Z :=
  if float_ge p (Finite (9 # 10)) then 3
  else if float_ge p (Finite (7 # 10)) then 2
  else if float_ge p (Finite (5 # 10)) then 1
  else 0.

(** Lines 70-71. *)
Definition weekday_points (w : string) : Z :=
  if str_in w ["Friday"; "Saturday"; "Sunday"] then 1 else 0.

(** Lines 72-77. *)
Definition season_points (s : string) : Z :=
  if String.eqb s "Winter" then 1
  else if String.eqb s "Spring" then 2
  else if String.eqb s "Fall" then 1
  else 0.

(** Lines 78-81. *)
Definition trips_points (n : Z) : Z :=
  if 5 <=? n then 2
  else if 3 <=? n then 1
  else 0.

(** Lines 63-82: the value of [score] when the band is chosen. *)
Definition band_score (row : DayFeatures) : npfloat :=
  let score := 0 in
  let score := score + pressure_points (Coach_Pressure row) in
  let score := score + weekday_points (Weekday row) in
  let score := score + season_points (Season row) in
  let score := score + trips_points (Trips_Scheduled row) in
  float_add (of_int score) (Avg_Complexity row).

Definition band_B : string * string :=
  ("B (50%)", "High volume, peak season, complex trips").
Definition band_Cplus : string * string :=
  ("C+ (45%)", "Very active day with high potential").
Definition band_C : string * string :=
  ("C (40%)", "Healthy demand with multiple trip drivers").
Definition band_Dplus : string * string :=
  ("D+ (35%)", "Mid-level day with moderate complexity").
Definition band_D : string * string :=
  ("D (30%)", "Low trip count but seasonal factors").
Definition band_Eplus : string * string :=
  ("E+ (25%)", "Soft demand day with low pressure and simple trips").

(** Lines 84-95. *)
Definition band_of_score (score : npfloat) : string * string :=
  if float_ge score (of_int 7) then band_B
  else if float_ge score (of_int 6) then band_Cplus
  else if float_ge score (of_int 5) then band_C
  else if float_ge score (of_int 4) then band_Dplus
  else if float_ge score (of_int 3) then band_D
  else band_Eplus.

Definition classify_band (row : DayFeatures) : string * string :=
  band_of_score (band_score row).

(** The threshold table of the specification, to compare [classify_band]
    with: a band is listed with the least score that earns it. *)
Definition band_table : list (Z * (string * string)) :=
  [(7, band_B); (6, band_Cplus); (5, band_C); (4, band_Dplus); (3, band_D)].

Definition band_labels : list string :=
  ["B (50%)"; "C+ (45%)"; "C (40%)"; "D+ (35%)"; "D (30%)"; "E+ (25%)"].

(** ** Dates, as the [datetime] and [calendar] modules compute them *)

Record date : Type := mkDate { year : Z; month : Z; day : Z }.

Definition date_eqb (a b : date) : bool :=
  (year a =? year b) && (month a =? month b) && (day a =? day b).

(** [calendar.isleap] *)
Definition isleap (y : Z) : bool :=
  (y mod 4 =? 0) && (negb (y mod 100 =? 0) || (y mod 400 =? 0)).

Definition DAYS_IN_MONTH : list Z :=
  [-1; 31; 28; 31; 30; 31; 30; 31; 31; 30; 31; 30; 31].
Definition DAYS_BEFORE_MONTH : list Z :=
  [-1; 0; 31; 59; 90; 120; 151; 181; 212; 243; 273; 304; 334].

Definition table_at (t : list Z) (i : Z) : Z := nth (Z.to_nat i) t (-1).

Definition days_in_month (y m : Z) : Z :=
  if (m =? 2) && isleap y then 29 else table_at DAYS_IN_MONTH m.

Definition days_before_year (y : Z) : Z :=
  let y := y - 1 in y * 365 + y / 4 - y / 100 + y / 400.

Definition days_before_month (y m : Z) : Z :=
  table_at DAYS_BEFORE_MONTH m + (if (2 <? m) && isleap y then 1 else 0).

(** [date.toordinal]: January 1 of year 1 is day 1. *)
Definition toordinal (d : date) : Z :=
  days_before_year (year d) + days_before_month (year d) (month d) + day d.

Definition DI400Y : Z := 146097.
Definition DI100Y : Z := 36524.
Definition DI4Y : Z := 1461.
Definition MAXORDINAL : Z := 3652059.

(** [date.fromordinal] *)
Definition fromordinal (n : Z) : date :=
  let n := n - 1 in
  let n400 := n / DI400Y in
  let n := n mod DI400Y in
  let y := n400 * 400 + 1 in
  let n100 := n / DI100Y in
  let n := n mod DI100Y in
  let n4 := n / DI4Y in
  let n := n mod DI4Y in
  let n1 := n / 365 in
  let n := n mod 365 in
  let y := y + n100 * 100 + n4 * 4 + n1 in
  if (n1 =? 4) || (n100 =? 4) then mkDate (y - 1) 12 31
  else
    let leapyear := (n1 =? 3) && (negb (n4 =? 24) || (n100 =? 3)) in
    let m := Z.shiftr (n + 50) 5 in
    let preceding :=
      table_at DAYS_BEFORE_MONTH m + (if (2 <? m) && leapyear then 1 else 0) in
    if n <? preceding then
      let m := m - 1 in
      let preceding :=
        preceding
        - (table_at DAYS_IN_MONTH m + (if (m =? 2) && leapyear then 1 else 0)) in
      mkDate y m (n - preceding + 1)
    else mkDate y m (n - preceding + 1).

(** [datetime(year, month, day)] *)
Definition datetime (y m d : Z) : result date :=
  if (1 <=? y) && (y <=? 9999) && (1 <=? m) && (m <=? 12)
     && (1 <=? d) && (d <=? days_in_month y m)
  then Ok (mkDate y m d)
  else Raise ValueError.

(** [d + timedelta(days=i)] *)
Definition add_days (d : date) (i : Z) : result date :=
  let n := toordinal d + i in
  if (1 <=? n) && (n <=? MAXORDINAL) then Ok (fromordinal n)
  else Raise OverflowError.

Definition weekday_names : list string :=
  ["Monday"; "Tuesday"; "Wednesday"; "Thursday"; "Friday"; "Saturday"; "Sunday"].
Definition month_names : list string :=
  ["January"; "February"; "March"; "April"; "May"; "June"; "July"; "August";
   "September"; "October"; "November"; "December"].

(** [d.strftime('%A')] *)
Definition strftime_A (d : date) : string :=
  nth (Z.to_nat ((toordinal d + 6) mod 7)) weekday_names "".

(** [d.strftime('%B')] *)
Definition strftime_B (d : date) : string :=
  nth (Z.to_nat (month d - 1)) month_names "".

(** [d.strftime('%B %-d')] (and ['%B %#d'] on Windows): the day of the month
    without padding. *)
Definition strftime_B_d (d : date) : string :=
  strftime_B d ++ " " ++ NilZero.string_of_uint (N.to_uint (Z.to_N (day d))).

(** ** Season *)

Definition Z_in (x : Z) (l : list Z) : bool := existsb (Z.eqb x) l.

Definition get_season (m : Z) : string :=
  if Z_in m [12; 1; 2] then "Winter"
  else if Z_in m [3; 4; 5] then "Spring"
  else if Z_in m [6; 7; 8] then "Summer"
  else "Fall".

(** ** Numbers of the pressure map *)

Inductive pynum : Type :=
| PyInt (z : Z)
| NpInt64 (z : Z).

Definition num_val (n : pynum) : Z :=
  match n with PyInt z | NpInt64 z => z end.

Definition ratio (a b : Z) : Q := Qred (inject_Z a / inject_Z b).

(** [a / b].  On two plain ints a zero divisor raises; as soon as one
    operand is a numpy scalar the division is numpy's, which warns and
    returns nan or an infinity. *)
Definition truediv (a b : pynum) : result npfloat :=
  match a, b with
  | PyInt x, PyInt y =>
      if y =? 0 then Raise ZeroDivisionError else Ok (Finite (ratio x y))
  | _, _ =>
      let x := num_val a in
      let y := num_val b in
      if y =? 0 then
        Ok (if x =? 0 then NaN else if 0 <? x then PosInf else NegInf)
      else Ok (Finite (ratio x y))
  end.

(** A dict with integer keys, in insertion order. *)
Definition dict : Type := list (Z * pynum).

Fixpoint dict_get (d : dict) (k : Z) (default : pynum) : pynum :=
  match d with
  | [] => default
  | (k', v) :: d' => if k' =? k then v else dict_get d' k default
  end.

Fixpoint dict_set (d : dict) (k : Z) (v : pynum) : dict :=
  match d with
  | [] => [(k, v)]
  | (k', v') :: d' =>
      if k' =? k then (k', v) :: d' else (k', v') :: dict_set d' k v
  end.

Definition dict_values (d : dict) : list pynum := map snd d.

Fixpoint max_from (cur : pynum) (l : list pynum) : pynum :=
  match l with
  | [] => cur
  | x :: l' => max_from (if num_val cur <? num_val x then x else cur) l'
  end.

(** [max(iterable)] *)
Definition py_max (l : list pynum) : result pynum :=
  match l with
  | [] => Raise ValueError
  | x :: l' => Ok (max_from x l')
  end.

(** ** Text *)

Definition is_upper (c : ascii) : bool :=
  let n := nat_of_ascii c in (65 <=? n)%nat && (n <=? 90)%nat.

Definition lower_ascii (c : ascii) : ascii :=
  if is_upper c then ascii_of_nat (nat_of_ascii c + 32) else c.

(** [s.lower()], on ASCII text. *)
Fixpoint lower (s : string) : string :=
  match s with
  | EmptyString => EmptyString
  | String c s' => String (lower_ascii c) (lower s')
  end.

(** [sub in s] *)
Fixpoint contains (sub s : string) : bool :=
  prefix sub s
  || match s with
     | EmptyString => false
     | String _ s' => contains sub s'
     end.

Definition is_digit (c : ascii) : bool :=
  let n := nat_of_ascii c in (48 <=? n)%nat && (n <=? 57)%nat.

Fixpoint take_digits (s : string) : string :=
  match s with
  | EmptyString => EmptyString
  | String c s' => if is_digit c then String c (take_digits s') else EmptyString
  end.

(** The group of the first match of [(\d+)], or nothing where the text has
    no digit. *)
Fixpoint extract_digits (s : string) : option string :=
  match s with
  | EmptyString => None
  | String c s' =>
      if is_digit c then Some (String c (take_digits s')) else extract_digits s'
  end.

Fixpoint int_of_digits (acc : Z) (s : string) : Z :=
  match s with
  | EmptyString => acc
  | String c s' => int_of_digits (acc * 10 + Z.of_nat (nat_of_ascii c - 48)) s'
  end.

(** ** Tables *)

Inductive cell : Type :=
| Str (s : string)
| NA.

Definition notna (c : cell) : bool :=
  match c with Str _ => true | NA => false end.

(** [str(c)] and [astype(str)] *)
Definition cell_str (c : cell) : string :=
  match c with Str s => s | NA => "nan" end.

Definition cell_at (row : list cell) (i : nat) : cell := nth i row NA.

(** A frame read with a header row: its column labels and its rows. *)
Record DataFrame : Type := mkDataFrame {
  columns : list string;
  rows : list (list cell)
}.

Fixpoint col_index (name : string) (cols : list string) : option nat :=
  match cols with
  | [] => None
  | c :: cols' =>
      if String.eqb c name then Some O
      else match col_index name cols' with
           | Some i => Some (S i)
           | None => None
           end
  end.

(** [df[name]]: the position of the column, [KeyError] without it. *)
Definition getitem (df : DataFrame) (name : string) : result nat :=
  match col_index name (columns df) with
  | Some i => Ok i
  | None => Raise KeyError
  end.

(** [row.get(name, '')] on a row of a frame with these columns. *)
Definition row_get (cols : list string) (row : list cell) (name : string)
    (default : cell) : cell :=
  match col_index name cols with
  | Some i => cell_at row i
  | None => default
  end.

(** ** Monthly totals *)

Definition month_map : list (string * Z) :=
  [("January", 1); ("February", 2); ("March", 3); ("April", 4);
   ("May", 5); ("June", 6); ("July", 7); ("August", 8);
   ("September", 9); ("October", 10); ("November", 11); ("December", 12)].

Definition cell_is (name : string) (c : cell) : bool :=
  match c with Str s => String.eqb s name | NA => false end.

(** The positions of the columns labelled [name]. *)
Fixpoint positions (name : string) (header : list cell) (i : nat) : list nat :=
  match header with
  | [] => []
  | c :: header' =>
      if cell_is name c then i :: positions name header' (S i)
      else positions name header' (S i)
  end.

Definition INT64_MAX : Z := 9223372036854775807.

(** The sum of an int64 series wraps around. *)
Definition wrap64 (z : Z) : Z := (z + 2 ^ 63) mod 2 ^ 64 - 2 ^ 63.

(** [astype(int)] on the extracted digit strings. *)
Definition astype_int (digits : list string) : result (list Z) :=
  mapM (fun s => let v := int_of_digits 0 s in
                 if v <=? INT64_MAX then Ok v else Raise OverflowError) digits.

Fixpoint dropna {A : Type} (l : list (option A)) : list A :=
  match l with
  | [] => []
  | Some a :: l' => a :: dropna l'
  | None :: l' => dropna l'
  end.

(** Line 24, on the column at position [i] of the data rows. *)
Definition month_values (data : list (list cell)) (i : nat) : result (list Z) :=
  astype_int
    (dropna (map (fun row => extract_digits (cell_str (cell_at row i))) data)).

(** Lines 22-25.  A label met twice selects a frame, not a series, and a
    frame has no [str] accessor. *)
Fixpoint extract_loop (header : list cell) (data : list (list cell))
    (months : list (string * Z)) (monthly_totals : dict) : result dict :=
  match months with
  | [] => Ok monthly_totals
  | (month, col) :: months' =>
      match positions month header 0 with
      | [] => extract_loop header data months' monthly_totals
      | [i] =>
          vals <- month_values data i ;;
          extract_loop header data months'
            (dict_set monthly_totals col
               (NpInt64 (wrap64 (fold_left Z.add vals 0))))
      | _ => Raise AttributeError
      end
  end.

(** The table is read without a header: a list of rows. *)
Definition extract_monthly_totals (tbn_df : list (list cell)) : result dict :=
  let tbn_df := skipn 4 tbn_df in
  match tbn_df with
  | [] => Raise IndexError
  | header :: data => extract_loop header data month_map []
  end.

(** ** Dispatch normalization *)

Record Timestamp : Type := mkTimestamp { ts_date : date; ts_seconds : Z }.

(** A row of the normalized frame, as [build_calendar] reads it: the columns
    ['Date'] and ['Trip Complexity']. *)
Record Trip : Type := mkTrip { Date : date; Trip_Complexity : Z }.

Definition urban_keywords : list string := ["nyc"; "manhattan"; "dc"; "downtown"].
Definition leisure_keywords : list string :=
  ["hershey"; "dorney"; "park"; "amusement"].

(** The text that [infer_complexity] searches. *)
Definition row_text (cols : list string) (row : list cell) : string :=
  lower (String.concat " "
    [cell_str (row_get cols row "Route Description" (Str ""));
     cell_str (row_get cols row "Destination" (Str ""));
     cell_str (row_get cols row "Group Name" (Str ""))]).

Definition infer_complexity (cols : list string) (row : list cell) : Z :=
  let text := row_text cols row in
  if existsb (fun x => contains x text) urban_keywords then 1
  else if existsb (fun x => contains x text) leisure_keywords then -1
  else 0.

Definition is_some {A : Type} (o : option A) : bool :=
  match o with Some _ => true | None => false end.

Section Dispatch.

(** [pd.to_datetime(series, errors='coerce')]: a timestamp, or NaT, for
    each element of the column. *)
Variable to_datetime : list cell -> list (option Timestamp).

Definition load_dispatch (dispatch_df : DataFrame) : result (list Trip) :=
  booking <- getitem dispatch_df "Booking ID" ;;
  let kept := filter (fun row => notna (cell_at row booking)) (rows dispatch_df) in
  departure <- getitem dispatch_df "First Departure" ;;
  let stamps := to_datetime (map (fun row => cell_at row departure) kept) in
  let kept := filter (fun rs => is_some (snd rs)) (combine kept stamps) in
  Ok (dropna
        (map (fun rs =>
                match snd rs with
                | Some ts =>
                    Some (mkTrip (ts_date ts)
                            (infer_complexity (columns dispatch_df) (fst rs)))
                | None => None
                end) kept)).

End Dispatch.

(** A parser of ['YYYY-MM-DD'] departures, to run [load_dispatch] on
    concrete tables. *)
Fixpoint all_digits (s : string) : bool :=
  match s with
  | EmptyString => true
  | String c s' => is_digit c && all_digits s'
  end.

Definition parse_iso (s : string) : option Timestamp :=
  let y := substring 0 4 s in
  let m := substring 5 2 s in
  let d := substring 8 2 s in
  if (String.length s =? 10)%nat && all_digits y && all_digits m && all_digits d
     && String.eqb (substring 4 1 s) "-" && String.eqb (substring 7 1 s) "-"
  then
    match datetime (int_of_digits 0 y) (int_of_digits 0 m) (int_of_digits 0 d) with
    | Ok dt => Some (mkTimestamp dt 0)
    | Raise _ => None
    end
  else None.

Definition iso_to_datetime (col : list cell) : list (option Timestamp) :=
  map (fun c => match c with Str s => parse_iso s | NA => None end) col.

(** ** The calendar *)

Record CalendarRow : Type := mkCalendarRow {
  Full_Date : date;
  Formatted_Date : string;
  Month : string;
  Row_Weekday : string;
  Row_Season : string;
  Row_Coach_Pressure : npfloat;
  Row_Trips_Scheduled : Z;
  Avg_Trip_Complexity : npfloat;
  Suggested_Band : string;
  Reason : string
}.

(** [Series.mean()]: nan on an empty series. *)
Definition series_mean (l : list Z) : npfloat :=
  match l with
  | [] => NaN
  | _ => Finite (ratio (fold_left Z.add l 0) (Z.of_nat (List.length l)))
  end.

Definition round_half_even (q : Q) : Z :=
  let f := Qfloor q in
  match (q - inject_Z f ?= 1 # 2)%Q with
  | Lt => f
  | Gt => f + 1
  | Eq => if Z.even f then f else f + 1
  end.

(** [round(x, 2)] *)
Definition round2 (x : npfloat) : npfloat :=
  match x with
  | Finite q => Finite (Qred (inject_Z (round_half_even (q * 100)) / 100))
  | _ => x
  end.

(** Lines 105-137: the body of the loop, for the day at offset [i]. *)
Definition calendar_row (monthly_totals : dict) (max_pressure : pynum)
    (dispatch_df : list Trip) (start_date : date) (i : nat) : result CalendarRow :=
  date <- add_days start_date (Z.of_nat i) ;;
  let day := date in
  let month := month date in
  let weekday := strftime_A date in
  let season := get_season month in
  pressure <- truediv (dict_get monthly_totals month (PyInt 0)) max_pressure ;;
  let trips_today := filter (fun t => date_eqb (Date t) day) dispatch_df in
  let trip_count := Z.of_nat (List.length trips_today) in
  let complexity_avg :=
    if 0 <? trip_count then series_mean (map Trip_Complexity trips_today)
    else of_int 0 in
  let '(band, reason) :=
    classify_band (mkDayFeatures pressure weekday season trip_count complexity_avg) in
  let formatted_date := strftime_B_d date in
  Ok (mkCalendarRow day formatted_date (strftime_B date) weekday season
        (round2 pressure) trip_count (round2 complexity_avg) band reason).

Definition build_calendar (year : Z) (monthly_totals : dict)
    (dispatch_df : list Trip) : result (list CalendarRow) :=
  max_pressure <- py_max (dict_values monthly_totals) ;;
  start_date <- datetime year 1 1 ;;
  let days := if isleap year then 366%nat else 365%nat in
  mapM (calendar_row monthly_totals max_pressure dispatch_df start_date)
       (seq 0 days).

(** The calendar days of a year as the specification lists them: every day
    of every month, January 1 first and December 31 last. *)
Definition month_days (y m : Z) : list date :=
  map (fun d => mkDate y m (Z.of_nat d)) (seq 1 (Z.to_nat (days_in_month y m))).

Definition calendar_days (y : Z) : list date :=
  flat_map (month_days y) [1; 2; 3; 4; 5; 6; 7; 8; 9; 10; 11; 12].

(** The day after [d] on the calendar. *)
Definition next_day (d : date) : date :=
  if day d <? days_in_month (year d) (month d)
  then mkDate (year d) (month d) (day d + 1)
  else if month d <? 12 then mkDate (year d) (month d + 1) 1
  else mkDate (year d + 1) 1 1.

(** The row of the calendar at offset [i], when the calendar is built. *)
Definition calendar_day (year : Z) (monthly_totals : dict)
    (dispatch_df : list Trip) (i : nat) : option CalendarRow :=
  match build_calendar year monthly_totals dispatch_df with
  | Ok rows => nth_error rows i
  | Raise _ => None
  end.

(** Monthly totals for the end-to-end scenario: January's 100 is the
    maximum, February has 50 and December 80. *)
Definition scenario_totals : dict :=
  [(1, PyInt 100); (2, PyInt 50); (3, PyInt 60); (4, PyInt 70);
   (5, PyInt 75); (6, PyInt 90); (7, PyInt 95); (8, PyInt 85);
   (9, PyInt 65); (10, PyInt 55); (11, PyInt 45); (12, PyInt 80)].

(** [sub] occurs in [s] as a contiguous run of characters. *)
Definition Substring (sub s : string) : Prop :=
  exists pre post, s = pre ++ sub ++ post.

(** Some keyword of [kws] occurs in [text]. *)
Definition mentions (kws : list string) (text : string) : Prop :=
  exists kw, In kw kws /\ Substring kw text.

(** The columns that the specification requires of a dispatch table. *)
Definition required_columns : list string :=
  ["Booking ID"; "First Departure"; "Route Description"; "Destination";
   "Group Name"].

(** A dispatch table with the booking and departure columns only. *)
Definition dispatch_without_text_columns : DataFrame :=
  mkDataFrame ["Booking ID"; "First Departure"]
    [[Str "B-1001"; Str "2023-01-06"]].

(** How many columns of the header row are labelled [name]. *)
Definition occurrences (name : string) (header : list cell) : nat :=
  List.length (filter (cell_is name) header).

(** [k in d] and [d[k]] at once. *)
Fixpoint dict_find (d : dict) (k : Z) : option pynum :=
  match d with
  | [] => None
  | (k', v) :: d' => if k' =? k then Some v else dict_find d' k
  end.

(** A capacity summary of five rows whose header row names January twice. *)
Definition summary_with_repeated_month : list (list cell) :=
  [[Str "TBN Summary"; NA]; [NA; NA]; [Str "Region"; Str "East"]; [NA; NA];
   [Str "January"; Str "January"]].

(** The feature record of lines 116-122 for the day [d], given its coach
    pressure. *)
Definition day_features (d : date) (pressure : npfloat)
    (dispatch_df : list Trip) : DayFeatures :=
  let trips_today := filter (fun t => date_eqb (Date t) d) dispatch_df in
  let trip_count := Z.of_nat (List.length trips_today) in
  mkDayFeatures pressure (strftime_A d) (get_season (month d)) trip_count
    (if 0 <? trip_count then series_mean (map Trip_Complexity trips_today)
     else of_int 0).

(** The row of lines 126-137 for the day [d], given its coach pressure. *)
Definition row_of (d : date) (pressure : npfloat)
    (dispatch_df : list Trip) : CalendarRow :=
  let f := day_features d pressure dispatch_df in
  mkCalendarRow d (strftime_B_d d) (strftime_B d) (Weekday f) (Season f)
    (round2 pressure) (Trips_Scheduled f) (round2 (Avg_Complexity f))
    (fst (classify_band f)) (snd (classify_band f)).

(** A pressure map with at least one positive total. *)
Definition valid_totals (monthly_totals : dict) : Prop :=
  exists k v, In (k, v) monthly_totals /\ 0 < num_val v.

(** ** Checks on the dates of a year, decided by evaluation *)

(** [l] lists the dates [start + i], [start + (i+1)], ... *)
Fixpoint dates_from (start : date) (i : nat) (l : list date) : bool :=
  match l with
  | [] => true
  | d :: l' =>
      match add_days start (Z.of_nat i) with
      | Ok d' => date_eqb d' d
      | Raise _ => false
      end && dates_from start (S i) l'
  end.

(** Each date of [l] is the day after the one before it, and its ordinal is
    one more. *)
Fixpoint chain_ok (l : list date) : bool :=
  match l with
  | a :: (b :: _) as l' =>
      date_eqb b (next_day a) && (toordinal b =? toordinal a + 1) && chain_ok l'
  | _ => true
  end.

Definition year_checks (y : Z) : bool :=
  let days := calendar_days y in
  (List.length days =? (if isleap y then 366 else 365))%nat
  && dates_from (mkDate y 1 1) 0 days
  && chain_ok days
  && match days with d :: _ => date_eqb d (mkDate y 1 1) | [] => false end
  && date_eqb (last days (mkDate 0 0 0)) (mkDate y 12 31).

(** The years that the year selector accepts: 2020 to 2100. *)
Definition target_years : list Z :=
  map (fun k => 2020 + Z.of_nat k) (seq 0 81).

(** A capacity summary of five rows: four rows of metadata and the header
    row, with no data row under it. *)
Definition header_only_summary : list (list cell) :=
  [[Str "TBN Summary"]; [NA]; [Str "Region East"]; [NA]; [Str "January"]].

(** The row of January 1 in the calendar of the scenario. *)
Definition scenario_new_year_row : CalendarRow :=
  mkCalendarRow (mkDate 2023 1 1) "January 1" "January" "Sunday" "Winter"
    (Finite 1) 0 (Finite 0) "C (40%)"
    "Healthy demand with multiple trip drivers".

(** ** Further definitions for the properties of the pipeline *)

(** The discount, in percent, that a band label announces. *)
Definition band_discount (label : string) : Z :=
  if String.eqb label "B (50%)" then 50
  else if String.eqb label "C+ (45%)" then 45
  else if String.eqb label "C (40%)" then 40
  else if String.eqb label "D+ (35%)" then 35
  else if String.eqb label "D (30%)" then 30
  else 25.

(** The integer part of the score: the value of [score] before line 82. *)
Definition band_points (row : DayFeatures) : Z :=
  0 + pressure_points (Coach_Pressure row) + weekday_points (Weekday row)
  + season_points (Season row) + trips_points (Trips_Scheduled row).



(** The integers read in the column at position [i] of the data rows: the
    first run of digits of each cell that has one. *)
Definition parsed_cells (data : list (list cell)) (i : nat) : list Z :=
  map (int_of_digits 0)
    (dropna (map (fun row => extract_digits (cell_str (cell_at row i))) data)).

Definition dict_keys (d : dict) : list Z := map fst d.

(** The header row has a column labelled [name]. *)
Definition named (header : list cell) (mc : string * Z) : bool :=
  (0 <? occurrences (fst mc) header)%nat.

Definition in_int64 (z : Z) : Prop := - 2 ^ 63 <= z <= INT64_MAX.

(** The three texts that [infer_complexity] joins. *)
Definition text_fields (cols : list string) (row : list cell) : list string :=
  [cell_str (row_get cols row "Route Description" (Str ""));
   cell_str (row_get cols row "Destination" (Str ""));
   cell_str (row_get cols row "Group Name" (Str ""))].

(** Some field of the row mentions, in any letter case, a keyword. *)
Definition field_mentions (kws : list string) (cols : list string)
    (row : list cell) : Prop :=
  exists field, In field (text_fields cols row) /\ mentions kws (lower field).

(** No keyword of the list holds a space. *)
Definition spaceless (kws : list string) : Prop :=
  forall kw, In kw kws -> ~ Substring " " kw.

(** The trips that one row of the table gives, under a parser [parse] that
    reads each departure on its own: one when the booking is present and
    the departure is read, none otherwise. *)
Definition trips_of_row (parse : cell -> option Timestamp)
    (cols : list string) (booking departure : nat) (row : list cell)
    : list Trip :=
  if notna (cell_at row booking) then
    match parse (cell_at row departure) with
    | Some ts => [mkTrip (ts_date ts) (infer_complexity cols row)]
    | None => []
    end
  else [].

(** [parse_iso] on a cell: a missing value is not a date. *)
Definition parse_iso_cell (c : cell) : option Timestamp :=
  match c with Str s => parse_iso s | NA => None end.

(** The weekday after a weekday. *)
Definition next_weekday (w : string) : string :=
  if String.eqb w "Monday" then "Tuesday"
  else if String.eqb w "Tuesday" then "Wednesday"
  else if String.eqb w "Wednesday" then "Thursday"
  else if String.eqb w "Thursday" then "Friday"
  else if String.eqb w "Friday" then "Saturday"
  else if String.eqb w "Saturday" then "Sunday"
  else "Monday".

Definition sum_Z (l : list Z) : Z := fold_right Z.add 0 l.

(** The trips whose date is a calendar day of the year [y]. *)
Definition trips_in_year (y : Z) (trips : list Trip) : list Trip :=
  filter (fun t => existsb (date_eqb (Date t)) (calendar_days y)) trips.

(** Lines 161-163: the three calls of the button handler, on the two tables
    as read from the uploaded files and the selected year; an exception of
    any of them reaches the [except] of the handler. *)
Definition generate_calendar
    (to_datetime : list cell -> list (option Timestamp))
    (tbn_df : list (list cell)) (dispatch_df : DataFrame) (year : Z)
    : result (list CalendarRow) :=
  monthly_totals <- extract_monthly_totals tbn_df ;;
  cleaned_dispatch <- load_dispatch to_datetime dispatch_df ;;
  build_calendar year monthly_totals cleaned_dispatch.

(** The one trip of the scenario. *)
Definition scenario_trips : list Trip := [mkTrip (mkDate 2023 1 6) 1].

(** The number of trips that depart on the day [d]. *)
Definition trips_on (d : date) (trips : list Trip) : Z :=
  Z.of_nat (List.length (filter (fun t => date_eqb (Date t) d) trips)).

(** * Properties *)

(** ** Floats *)

Lemma float_ge_trans (x y z : npfloat) :
  float_ge x y = true -> float_ge y z = true -> float_ge x z = true.
Proof.
  destruct x as [a| | |], y as [b| | |], z as [c| | |]; simpl;
    try discriminate; try reflexivity.
  rewrite !Qle_bool_iff. intros Hba Hcb. now apply Qle_trans with b.
Qed.

Lemma float_ge_of_int (a b : Z) :
  float_ge (of_int a) (of_int b) = true <-> b <= a.
Proof.
  unfold of_int; simpl. rewrite Qle_bool_iff, <- Zle_Qle. reflexivity.
Qed.

Lemma float_add_mono (a b : Z) (c1 c2 : npfloat) :
  b <= a -> float_eq c1 c2 = true ->
  float_ge (float_add (of_int a) c1) (float_add (of_int b) c2) = true.
Proof.
  intros Hab Heq.
  destruct c1 as [q1| | |], c2 as [q2| | |];
    cbn [float_add float_ge float_eq of_int] in *;
    try discriminate; try reflexivity.
  apply Qeq_bool_iff in Heq. apply Qle_bool_iff.
  eapply Qle_trans; [apply Qle_lteq; right; apply Qred_correct |].
  eapply Qle_trans; [| apply Qle_lteq; right; symmetry; apply Qred_correct].
  apply Qplus_le_compat; [now rewrite <- Zle_Qle |].
  apply Qle_lteq; right; symmetry; exact Heq.
Qed.

(** ** The band classifier *)

Lemma pressure_points_mono (p1 p2 : npfloat) :
  float_ge p1 p2 = true -> pressure_points p2 <= pressure_points p1.
Proof.
  intros Hge. unfold pressure_points.
  destruct (float_ge p2 (Finite (9 # 10))) eqn:H9.
  { rewrite (float_ge_trans _ _ _ Hge H9). lia. }
  destruct (float_ge p2 (Finite (7 # 10))) eqn:H7.
  { rewrite (float_ge_trans _ _ _ Hge H7).
    destruct (float_ge p1 (Finite (9 # 10))); lia. }
  destruct (float_ge p2 (Finite (5 # 10))) eqn:H5.
  { rewrite (float_ge_trans _ _ _ Hge H5).
    destruct (float_ge p1 (Finite (9 # 10))),
             (float_ge p1 (Finite (7 # 10))); lia. }
  destruct (float_ge p1 (Finite (9 # 10))),
           (float_ge p1 (Finite (7 # 10))),
           (float_ge p1 (Finite (5 # 10))); lia.
Qed.

Lemma band_of_score_cases (s : npfloat) :
  let ge t := float_ge s (of_int t) in
  (ge 7 = true /\ band_of_score s = band_B)
  \/ (ge 7 = false /\ ge 6 = true /\ band_of_score s = band_Cplus)
  \/ (ge 7 = false /\ ge 6 = false /\ ge 5 = true /\ band_of_score s = band_C)
  \/ (ge 7 = false /\ ge 6 = false /\ ge 5 = false /\ ge 4 = true
      /\ band_of_score s = band_Dplus)
  \/ (ge 7 = false /\ ge 6 = false /\ ge 5 = false /\ ge 4 = false
      /\ ge 3 = true /\ band_of_score s = band_D)
  \/ (ge 7 = false /\ ge 6 = false /\ ge 5 = false /\ ge 4 = false
      /\ ge 3 = false /\ band_of_score s = band_Eplus).
Proof.
  unfold band_of_score; cbv zeta.
  destruct (float_ge s (of_int 7)); [now left | right].
  destruct (float_ge s (of_int 6)); [now left | right].
  destruct (float_ge s (of_int 5)); [now left | right].
  destruct (float_ge s (of_int 4)); [now left | right].
  destruct (float_ge s (of_int 3)); [now left | right].
  repeat split.
Qed.

(** C1: the record with coach pressure 1.0, weekday Friday, season Winter,
    one trip and average complexity 1 scores 3 + 1 + 1 + 0 + 1 = 6 and is
    given the band 'C+ (45%)'; and that record is the one of January 6 in
    the calendar of 2023 built from totals whose maximum is January's 100
    and a single trip of complexity 1 on that day. *)
Theorem C1_scenario_band_Cplus :
  let row := mkDayFeatures (Finite 1) "Friday" "Winter" 1 (Finite 1) in
  pressure_points (Coach_Pressure row) = 3
  /\ weekday_points (Weekday row) = 1
  /\ season_points (Season row) = 1
  /\ trips_points (Trips_Scheduled row) = 0
  /\ Avg_Complexity row = of_int 1
  /\ band_score row = of_int 6
  /\ fst (classify_band row) = "C+ (45%)"
  /\ calendar_day 2023 scenario_totals [mkTrip (mkDate 2023 1 6) 1] 5
     = Some (mkCalendarRow (mkDate 2023 1 6) "January 6" "January" "Friday"
               "Winter" (Finite 1) 1 (Finite 1) "C+ (45%)"
               "Very active day with high potential").
Proof.
  cbv zeta. repeat split; vm_compute; reflexivity.
Qed.

(** C2: [classify_band] is a total function without an error result; on
    every feature record it returns one of the six bands, and that band is
    the one listed with the highest of the thresholds 7, 6, 5, 4, 3 that the
    score reaches, or 'E+ (25%)' when the score reaches none. *)
Theorem C2_band_total_by_highest_threshold (row : DayFeatures) :
  let reaches t := float_ge (band_score row) (of_int t) = true in
  (exists! label, In label band_labels /\ fst (classify_band row) = label)
  /\ ((exists t band,
         In (t, band) band_table /\ reaches t
         /\ (forall t' band', In (t', band') band_table -> reaches t' -> t' <= t)
         /\ classify_band row = band)
      \/ ((forall t band, In (t, band) band_table -> ~ reaches t)
          /\ classify_band row = band_Eplus)).
Proof.
  cbv zeta. unfold classify_band.
  pose proof (band_of_score_cases (band_score row)) as H. cbv zeta in H.
  set (s := band_score row) in *.
  split.
  - assert (Hin : In (fst (band_of_score s)) band_labels).
    { destruct H as [[? E]|[(?&?&E)|[(?&?&?&E)|[(?&?&?&?&E)|
        [(?&?&?&?&?&E)|(?&?&?&?&?&E)]]]]]; rewrite E; simpl; tauto. }
    exists (fst (band_of_score s)). split; [now split |].
    intros l [_ Hl]. exact Hl.
  - destruct H as [[H7 E]|[(H7&H6&E)|[(H7&H6&H5&E)|[(H7&H6&H5&H4&E)|
      [(H7&H6&H5&H4&H3&E)|(H7&H6&H5&H4&H3&E)]]]]].
    + left. exists 7, band_B. repeat split; [simpl; tauto | assumption | | assumption].
      intros t' b' Hin _. simpl in Hin.
      repeat (destruct Hin as [Hin|Hin]; [injection Hin as <- _; lia |]).
      contradiction.
    + left. exists 6, band_Cplus.
      repeat split; [simpl; tauto | assumption | | assumption].
      intros t' b' Hin Hr. simpl in Hin.
      repeat (destruct Hin as [Hin|Hin];
              [injection Hin as <- _; try lia; congruence |]).
      contradiction.
    + left. exists 5, band_C.
      repeat split; [simpl; tauto | assumption | | assumption].
      intros t' b' Hin Hr. simpl in Hin.
      repeat (destruct Hin as [Hin|Hin];
              [injection Hin as <- _; try lia; congruence |]).
      contradiction.
    + left. exists 4, band_Dplus.
      repeat split; [simpl; tauto | assumption | | assumption].
      intros t' b' Hin Hr. simpl in Hin.
      repeat (destruct Hin as [Hin|Hin];
              [injection Hin as <- _; try lia; congruence |]).
      contradiction.
    + left. exists 3, band_D.
      repeat split; [simpl; tauto | assumption | | assumption].
      intros t' b' Hin Hr. simpl in Hin.
      repeat (destruct Hin as [Hin|Hin];
              [injection Hin as <- _; try lia; congruence |]).
      contradiction.
    + right. split; [| assumption].
      intros t b Hin Hr. simpl in Hin.
      repeat (destruct Hin as [Hin|Hin]; [injection Hin as <- _; congruence |]).
      contradiction.
Qed.

(** C5: for two feature records that agree on weekday, season, trip count
    and average complexity, a coach pressure at least as high gives a score
    at least as high. *)
Theorem C5_score_monotone_in_pressure (r1 r2 : DayFeatures) :
  Weekday r1 = Weekday r2 ->
  Season r1 = Season r2 ->
  Trips_Scheduled r1 = Trips_Scheduled r2 ->
  float_eq (Avg_Complexity r1) (Avg_Complexity r2) = true ->
  float_ge (Coach_Pressure r1) (Coach_Pressure r2) = true ->
  float_ge (band_score r1) (band_score r2) = true.
Proof.
  intros Hw Hs Ht Hc Hp. unfold band_score; cbv zeta.
  rewrite Hw, Hs, Ht.
  apply float_add_mono; [| exact Hc].
  pose proof (pressure_points_mono _ _ Hp). lia.
Qed.

(** C5 at two records that differ in pressure only: 1.0 against 0.5. *)
Lemma C5_score_monotone_witness :
  float_ge
    (band_score (mkDayFeatures (Finite 1) "Friday" "Winter" 1 (Finite 1)))
    (band_score (mkDayFeatures (Finite (1 # 2)) "Friday" "Winter" 1 (Finite 1)))
  = true.
Proof.
  apply C5_score_monotone_in_pressure; reflexivity.
Defined.

(** ** Text *)

Lemma prefix_app (sub s : string) :
  prefix sub s = true <-> exists post, s = sub ++ post.
Proof.
  revert s. induction sub as [| c sub IH]; intros s; simpl.
  - split; [intros _; now exists s | intros _; now destruct s].
  - destruct s as [| c' s]; [split; [discriminate | intros [p Hp]; discriminate] |].
    simpl. destruct (ascii_dec c c') as [-> | Hne].
    + specialize (IH s).
      split; [intros H; apply IH in H | intros H; apply IH];
        destruct H as [p Hp]; exists p; congruence.
    + split; [discriminate | intros [p Hp]; congruence].
Qed.

Lemma contains_Substring (sub s : string) :
  contains sub s = true <-> Substring sub s.
Proof.
  induction s as [| c s IH]; cbn [contains]; rewrite orb_true_iff, prefix_app.
  - split.
    + intros [[post Hp] | Hf]; [| discriminate]. now exists "", post.
    + intros (pre & post & Hp). left.
      destruct pre; [now exists post |]. discriminate.
  - rewrite IH. split.
    + intros [[post Hp] | (pre & post & Hp)].
      * now exists "", post.
      * exists (String c pre), post. simpl. now rewrite Hp.
    + intros (pre & post & Hp). destruct pre as [| c' pre]; simpl in Hp.
      * left. now exists post.
      * right. exists pre, post. congruence.
Qed.

Lemma existsb_contains (kws : list string) (text : string) :
  existsb (fun x => contains x text) kws = true <-> mentions kws text.
Proof.
  rewrite existsb_exists. unfold mentions.
  split; intros (kw & Hin & H); exists kw; split; auto;
    now apply contains_Substring.
Qed.

Lemma lower_app (a b : string) : lower (a ++ b) = lower a ++ lower b.
Proof.
  induction a as [| c a IH]; simpl; [reflexivity | now rewrite IH].
Qed.

(** ** Dispatch normalization *)

Lemma col_index_None (name : string) (cols : list string) :
  col_index name cols = None <-> ~ In name cols.
Proof.
  induction cols as [| c cols IH]; simpl; [tauto |].
  destruct (String.eqb_spec c name) as [-> | Hne].
  - split; [discriminate | tauto].
  - destruct (col_index name cols).
    + split; [discriminate |]. intros H. exfalso. apply H. right.
      destruct IH as [_ IH]. 
      destruct (in_dec string_dec name cols) as [Hin | Hnin]; [exact Hin |].
      discriminate (IH Hnin).
    + split; [| reflexivity]. intros _ [Heq | Hin]; [congruence |].
      now apply IH.
Qed.

Lemma getitem_missing (df : DataFrame) (name : string) :
  ~ In name (columns df) -> getitem df name = Raise KeyError.
Proof.
  intros H. unfold getitem. apply col_index_None in H. now rewrite H.
Qed.

Lemma getitem_present (df : DataFrame) (name : string) :
  In name (columns df) -> exists i, getitem df name = Ok i.
Proof.
  intros H. unfold getitem.
  destruct (col_index name (columns df)) as [i |] eqn:E; [now exists i |].
  apply col_index_None in E. contradiction.
Qed.

Lemma In_dropna {A : Type} (a : A) (l : list (option A)) :
  In a (dropna l) <-> In (Some a) l.
Proof.
  induction l as [| [x |] l IH]; simpl.
  - tauto.
  - rewrite IH. split; intros [H | H]; auto; left; congruence.
  - rewrite IH. split; [auto | intros [H | H]; [discriminate | exact H]].
Qed.

(** Every trip that the normalization returns carries the complexity that
    [infer_complexity] gives to a row of the table. *)
Lemma load_dispatch_complexity
    (to_datetime : list cell -> list (option Timestamp)) (df : DataFrame)
    (trips : list Trip) :
  load_dispatch to_datetime df = Ok trips ->
  forall t, In t trips ->
    exists row, In row (rows df)
                /\ Trip_Complexity t = infer_complexity (columns df) row.
Proof.
  unfold load_dispatch. intros Hrun t Ht.
  destruct (getitem df "Booking ID") as [i |]; [| discriminate].
  cbn [bind] in Hrun.
  destruct (getitem df "First Departure") as [j |]; [| discriminate].
  cbn [bind] in Hrun. injection Hrun as <-.
  apply In_dropna, in_map_iff in Ht. destruct Ht as ([row ts] & Heq & Hin).
  apply filter_In in Hin. destruct Hin as [Hin _].
  apply in_combine_l, filter_In in Hin. destruct Hin as [Hin _].
  exists row. split; [exact Hin |].
  cbn [fst snd] in Heq. destruct ts as [ts |]; [| discriminate].
  injection Heq as <-. reflexivity.
Qed.

(** C6: the complexity of a row is read off the lower-cased, space-joined
    text of 'Route Description', 'Destination' and 'Group Name': 1 when an
    urban keyword occurs in it, else -1 when a leisure keyword occurs, else
    0; a destination 'Downtown NYC Tour' gives 1 and 'Hershey Park' -1. *)
Theorem C6_infer_complexity_keywords (cols : list string) (row : list cell) :
  let field name := cell_str (row_get cols row name (Str "")) in
  let text := row_text cols row in
  text = lower (field "Route Description") ++ " "
         ++ lower (field "Destination") ++ " " ++ lower (field "Group Name")
  /\ (infer_complexity cols row = 1 <-> mentions urban_keywords text)
  /\ (infer_complexity cols row = -1 <->
      ~ mentions urban_keywords text /\ mentions leisure_keywords text)
  /\ (infer_complexity cols row = 0 <->
      ~ mentions urban_keywords text /\ ~ mentions leisure_keywords text)
  /\ infer_complexity required_columns
       [Str "B-1001"; Str "2023-01-06"; Str "Charter"; Str "Downtown NYC Tour";
        Str "Lincoln High"] = 1
  /\ infer_complexity required_columns
       [Str "B-1002"; Str "2023-01-07"; Str "Charter"; Str "Hershey Park";
        Str "Lincoln High"] = -1
  /\ infer_complexity ["Destination"] [Str "Downtown NYC Tour"] = 1
  /\ infer_complexity ["Destination"] [Str "Hershey Park"] = -1.
Proof.
  cbv zeta. split.
  { unfold row_text. cbn [String.concat]. rewrite !lower_app.
    change (lower " ") with " ". reflexivity. }
  assert (Hu := existsb_contains urban_keywords (row_text cols row)).
  assert (Hl := existsb_contains leisure_keywords (row_text cols row)).
  cut ((infer_complexity cols row = 1 <-> mentions urban_keywords (row_text cols row))
       /\ (infer_complexity cols row = -1 <->
           ~ mentions urban_keywords (row_text cols row)
           /\ mentions leisure_keywords (row_text cols row))
       /\ (infer_complexity cols row = 0 <->
           ~ mentions urban_keywords (row_text cols row)
           /\ ~ mentions leisure_keywords (row_text cols row))).
  { intros (H1 & H2 & H3).
    repeat (split; [assumption |]). repeat split; vm_compute; reflexivity. }
  unfold infer_complexity; cbv zeta.
  destruct (existsb _ urban_keywords);
    [| destruct (existsb _ leisure_keywords)].
  - assert (Hm : mentions urban_keywords (row_text cols row)) by now apply Hu.
    split; [| split]; split; try discriminate; try tauto.
  - assert (Hm : mentions leisure_keywords (row_text cols row)) by now apply Hl.
    assert (Hn : ~ mentions urban_keywords (row_text cols row)).
    { intros H. apply Hu in H. discriminate. }
    split; [| split]; split; try discriminate; try tauto.
  - assert (Hn : ~ mentions urban_keywords (row_text cols row)).
    { intros H. apply Hu in H. discriminate. }
    assert (Hn' : ~ mentions leisure_keywords (row_text cols row)).
    { intros H. apply Hl in H. discriminate. }
    split; [| split]; split; try discriminate; try tauto.
Qed.

(** C3, as stated, fails: a table without 'Route Description', 'Destination'
    and 'Group Name' is normalized, the absent fields being read as empty
    text. *)
Lemma C3_missing_text_columns_accepted :
  (In "Destination" required_columns
   /\ ~ In "Destination" (columns dispatch_without_text_columns))
  /\ load_dispatch iso_to_datetime dispatch_without_text_columns
     = Ok [mkTrip (mkDate 2023 1 6) 0].
Proof.
  split; [split |].
  - simpl. tauto.
  - simpl. intros [H | [H | []]]; discriminate.
  - vm_compute. reflexivity.
Qed.

(** C3, amended: normalization raises (a KeyError) exactly when the table
    lacks 'Booking ID' or 'First Departure'; with both present it returns
    its trips, and a text column that is absent is read as the empty
    string. *)
Theorem C3_load_dispatch_key_columns
    (to_datetime : list cell -> list (option Timestamp)) (df : DataFrame) :
  (~ In "Booking ID" (columns df) \/ ~ In "First Departure" (columns df) ->
   load_dispatch to_datetime df = Raise KeyError)
  /\ (In "Booking ID" (columns df) -> In "First Departure" (columns df) ->
      exists trips, load_dispatch to_datetime df = Ok trips)
  /\ (forall name row, ~ In name (columns df) ->
      row_get (columns df) row name (Str "") = Str "").
Proof.
  split; [| split].
  - intros [H | H]; unfold load_dispatch.
    + now rewrite (getitem_missing _ _ H).
    + destruct (in_dec string_dec "Booking ID" (columns df)) as [Hb | Hb].
      * destruct (getitem_present _ _ Hb) as [i ->].
        cbn [bind]. now rewrite (getitem_missing _ _ H).
      * now rewrite (getitem_missing _ _ Hb).
  - intros Hb Hd. unfold load_dispatch.
    destruct (getitem_present _ _ Hb) as [i ->].
    destruct (getitem_present _ _ Hd) as [j ->].
    cbn [bind]. eexists. reflexivity.
  - intros name row H. unfold row_get.
    apply col_index_None in H. now rewrite H.
Qed.

(** C3, amended, at a table without 'First Departure' and at one with both
    key columns and no text column. *)
Lemma C3_load_dispatch_witness :
  load_dispatch iso_to_datetime
    (mkDataFrame ["Booking ID"; "Destination"] [[Str "B-1"; Str "Hershey Park"]])
  = Raise KeyError
  /\ (exists trips,
        load_dispatch iso_to_datetime dispatch_without_text_columns = Ok trips)
  /\ row_get (columns dispatch_without_text_columns)
       [Str "B-1001"; Str "2023-01-06"] "Destination" (Str "") = Str "".
Proof.
  split; [| split].
  - apply (proj1 (C3_load_dispatch_key_columns iso_to_datetime
                    (mkDataFrame ["Booking ID"; "Destination"]
                       [[Str "B-1"; Str "Hershey Park"]]))).
    right. simpl. intros [H | [H | []]]; discriminate.
  - apply (proj1 (proj2 (C3_load_dispatch_key_columns iso_to_datetime
                           dispatch_without_text_columns))); simpl; tauto.
  - apply (proj2 (proj2 (C3_load_dispatch_key_columns iso_to_datetime
                           dispatch_without_text_columns))).
    simpl. intros [H | [H | []]]; discriminate.
Defined.

(** ** Monthly totals *)

(** C7: on a capacity summary of fewer than five rows the extraction raises
    (an IndexError, at the read of the header row) and returns no map. *)
Theorem C7_short_summary_raises (tbn_df : list (list cell)) :
  (List.length tbn_df < 5)%nat ->
  extract_monthly_totals tbn_df = Raise IndexError.
Proof.
  intros H. unfold extract_monthly_totals.
  do 4 (destruct tbn_df as [| ? tbn_df]; [reflexivity |]).
  destruct tbn_df; [reflexivity | simpl in H; lia].
Qed.

(** C7 at a summary of four rows. *)
Lemma C7_short_summary_witness :
  extract_monthly_totals
    [[Str "TBN Summary"]; [NA]; [Str "January"]; [Str "Trips: 12"]]
  = Raise IndexError.
Proof.
  apply C7_short_summary_raises. simpl. lia.
Defined.

Lemma cell_is_true (name : string) (c : cell) :
  cell_is name c = true <-> c = Str name.
Proof.
  destruct c as [s |]; simpl; [| split; discriminate].
  rewrite String.eqb_eq. split; congruence.
Qed.

Lemma positions_length (name : string) (header : list cell) (i : nat) :
  List.length (positions name header i) = occurrences name header.
Proof.
  unfold occurrences. revert i.
  induction header as [| c header IH]; intros i; simpl; [reflexivity |].
  destruct (cell_is name c); simpl; now rewrite IH.
Qed.

Lemma occurrences_pos (name : string) (header : list cell) :
  (0 < occurrences name header)%nat <-> In (Str name) header.
Proof.
  unfold occurrences.
  induction header as [| c header IH]; simpl; [split; [lia | tauto] |].
  destruct (cell_is name c) eqn:E; simpl.
  - apply cell_is_true in E. split; [intros _; now left | lia].
  - rewrite IH. split; [tauto |]. intros [H | H]; [| exact H].
    apply cell_is_true in H. congruence.
Qed.

Lemma dict_find_set (d : dict) (k k' : Z) (v : pynum) :
  dict_find (dict_set d k v) k' = if k =? k' then Some v else dict_find d k'.
Proof.
  induction d as [| [k0 v0] d IH]; simpl.
  - reflexivity.
  - destruct (Z.eqb_spec k0 k) as [-> | Hne]; simpl.
    + destruct (Z.eqb_spec k k'); reflexivity.
    + rewrite IH. destruct (Z.eqb_spec k0 k') as [-> | Hne'].
      * destruct (Z.eqb_spec k k'); [congruence | reflexivity].
      * reflexivity.
Qed.

(** Without data rows every month met once in the header row is set to the
    empty sum, and the other keys are left as they were. *)
Lemma extract_loop_no_data (header : list cell) (months : list (string * Z)) :
  NoDup (map snd months) ->
  (forall name col, In (name, col) months ->
     (occurrences name header <= 1)%nat) ->
  forall acc, exists totals,
    extract_loop header [] months acc = Ok totals
    /\ (forall name col, In (name, col) months ->
          (In (Str name) header -> dict_find totals col = Some (NpInt64 0))
          /\ (~ In (Str name) header -> dict_find totals col = dict_find acc col))
    /\ (forall col, ~ In col (map snd months) ->
          dict_find totals col = dict_find acc col).
Proof.
  induction months as [| [m c] months IH]; intros Hnd Hocc acc.
  - exists acc. simpl. repeat split; tauto.
  - inversion Hnd as [| ? ? Hc Hnd']; subst.
    assert (Hocc' : forall name col, In (name, col) months ->
                      (occurrences name header <= 1)%nat).
    { intros name col H. apply (Hocc name col). now right. }
    pose proof (Hocc m c (or_introl eq_refl)) as Hm.
    pose proof (positions_length m header 0) as Hlen.
    pose proof (occurrences_pos m header) as Hpos.
    cbn [extract_loop].
    destruct (positions m header 0) as [| i [| i' ps]] eqn:Epos;
      simpl in Hlen; [| | lia].
    + destruct (IH Hnd' Hocc' acc) as (totals & Hrun & Hin & Hout).
      exists totals. split; [exact Hrun |]. split.
      * intros name col [Heq | H].
        -- injection Heq as <- <-. split.
           ++ intros Hh. apply Hpos in Hh. lia.
           ++ intros _. now apply Hout.
        -- now apply Hin.
      * intros col Hcol. apply Hout. simpl in Hcol. tauto.
    + set (acc' := dict_set acc c (NpInt64 (wrap64 (fold_left Z.add [] 0)))).
      destruct (IH Hnd' Hocc' acc') as (totals & Hrun & Hin & Hout).
      exists totals. split; [exact Hrun |]. split.
      * intros name col [Heq | H].
        -- injection Heq as <- <-. split.
           ++ intros _. rewrite (Hout c Hc). unfold acc'.
              rewrite dict_find_set, Z.eqb_refl. reflexivity.
           ++ intros Hh. exfalso. apply Hh. apply Hpos. lia.
        -- destruct (Hin name col H) as [Hp Ha]. split; [exact Hp |].
           intros Hh. rewrite (Ha Hh). unfold acc'. rewrite dict_find_set.
           destruct (Z.eqb_spec c col) as [-> | Hne]; [| reflexivity].
           exfalso. apply Hc. change col with (snd (name, col)).
           now apply in_map.
      * intros col Hcol. rewrite Hout by (simpl in Hcol; tauto).
        unfold acc'. rewrite dict_find_set.
        destruct (Z.eqb_spec c col) as [-> | Hne]; [| reflexivity].
        simpl in Hcol. tauto.
Qed.

(** C10, as stated, fails: with the month January named twice in the header
    row of a five-row table the extraction raises. *)
Lemma C10_repeated_month_raises :
  List.length summary_with_repeated_month = 5%nat
  /\ extract_monthly_totals summary_with_repeated_month = Raise AttributeError.
Proof.
  split; reflexivity.
Qed.

(** C10, amended: on a table of exactly five rows whose header row names no
    month twice, the extraction succeeds; every month named in the header
    row is mapped to 0 and every other month is left out of the map. *)
Theorem C10_header_only_summary (tbn_df : list (list cell)) (header : list cell) :
  List.length tbn_df = 5%nat ->
  nth_error tbn_df 4 = Some header ->
  (forall name col, In (name, col) month_map ->
     (occurrences name header <= 1)%nat) ->
  exists totals,
    extract_monthly_totals tbn_df = Ok totals
    /\ forall name col, In (name, col) month_map ->
         (In (Str name) header -> dict_find totals col = Some (NpInt64 0))
         /\ (~ In (Str name) header -> dict_find totals col = None).
Proof.
  intros Hlen Hhdr Hocc. unfold extract_monthly_totals.
  do 4 (destruct tbn_df as [| ? tbn_df]; [discriminate |]).
  destruct tbn_df as [| h tbn_df]; [discriminate |].
  destruct tbn_df; [| discriminate].
  simpl in Hhdr. injection Hhdr as ->. cbn [skipn].
  assert (Hnd : NoDup (map snd month_map)).
  { simpl. repeat (constructor; [simpl; intuition discriminate |]). constructor. }
  destruct (extract_loop_no_data header month_map Hnd Hocc [])
    as (totals & Hrun & Hin & _).
  exists totals. split; [exact Hrun |]. exact Hin.
Qed.

(** C10, amended, at a summary whose header row names January and March. *)
Lemma C10_header_only_witness :
  exists totals,
    extract_monthly_totals
      [[Str "TBN Summary"; NA]; [NA; NA]; [Str "Region"; Str "East"]; [NA; NA];
       [Str "January"; Str "March"]] = Ok totals
    /\ forall name col, In (name, col) month_map ->
         (In (Str name) [Str "January"; Str "March"] ->
          dict_find totals col = Some (NpInt64 0))
         /\ (~ In (Str name) [Str "January"; Str "March"] ->
             dict_find totals col = None).
Proof.
  apply C10_header_only_summary; [reflexivity | reflexivity |].
  intros name col H. simpl in H.
  repeat (destruct H as [H | H]; [injection H as <- <-; vm_compute; lia |]).
  contradiction.
Defined.

(** ** Loops and dictionaries *)

Lemma mapM_Forall2 {A B : Type} (f : A -> result B) (P : A -> B -> Prop)
    (l : list A) :
  (forall x, In x l -> exists y, f x = Ok y /\ P x y) ->
  exists ys, mapM f l = Ok ys /\ Forall2 P l ys.
Proof.
  induction l as [| x l IH]; intros H.
  - exists []. split; [reflexivity | constructor].
  - destruct (H x (or_introl eq_refl)) as (y & Hy & Py).
    destruct IH as (ys & Hys & Pys); [intros x' Hx'; apply H; now right |].
    exists (y :: ys). cbn [mapM]. rewrite Hy, Hys. split; [reflexivity |].
    now constructor.
Qed.

Lemma mapM_In {A B : Type} (f : A -> result B) (l : list A) :
  forall ys, mapM f l = Ok ys ->
  forall y, In y ys -> exists x, In x l /\ f x = Ok y.
Proof.
  induction l as [| x l IH]; intros ys Hrun y Hy; cbn [mapM] in Hrun.
  - injection Hrun as <-. contradiction.
  - destruct (f x) as [y0 |] eqn:Hfx; [| discriminate]. cbn [bind] in Hrun.
    destruct (mapM f l) as [ys0 |] eqn:Hl; [| discriminate].
    cbn [bind] in Hrun. injection Hrun as <-.
    destruct Hy as [<- | Hy].
    + exists x. split; [now left | exact Hfx].
    + destruct (IH ys0 eq_refl y Hy) as (x' & Hx' & Hfx').
      exists x'. split; [now right | exact Hfx'].
Qed.

Lemma Forall2_length_eq {A B : Type} (P : A -> B -> Prop) (l : list A)
    (ys : list B) :
  Forall2 P l ys -> List.length ys = List.length l.
Proof.
  induction 1; simpl; congruence.
Qed.

Lemma max_from_bounds (l : list pynum) :
  forall cur,
    num_val cur <= num_val (max_from cur l)
    /\ (forall x, In x l -> num_val x <= num_val (max_from cur l))
    /\ In (max_from cur l) (cur :: l).
Proof.
  induction l as [| x l IH]; intros cur; cbn [max_from].
  - split; [lia |]. split; [contradiction | now left].
  - destruct (IH (if num_val cur <? num_val x then x else cur))
      as (Hcur & Hin & Hmem).
    destruct (Z.ltb_spec (num_val cur) (num_val x)).
    + split; [lia |]. split.
      * intros y [<- | Hy]; [exact Hcur | now apply Hin].
      * destruct Hmem as [<- | Hmem]; [right; now left | right; now right].
    + split; [lia |]. split.
      * intros y [<- | Hy]; [lia | now apply Hin].
      * destruct Hmem as [<- | Hmem]; [now left | right; now right].
Qed.

Lemma py_max_valid (m : dict) :
  valid_totals m ->
  exists mx, py_max (dict_values m) = Ok mx /\ 0 < num_val mx.
Proof.
  intros (k & v & Hin & Hpos).
  assert (Hv : In v (dict_values m)).
  { unfold dict_values. change v with (snd (k, v)). now apply in_map. }
  destruct (dict_values m) as [| x l]; [contradiction |].
  exists (max_from x l). split; [reflexivity |].
  destruct (max_from_bounds l x) as (Hx & Hl & _).
  destruct Hv as [<- | Hv]; [lia |]. specialize (Hl v Hv). lia.
Qed.

Lemma truediv_nonzero (a b : pynum) :
  num_val b <> 0 -> exists q, truediv a b = Ok (Finite q).
Proof.
  intros Hb. unfold truediv.
  destruct a as [x | x], b as [y | y]; simpl in *;
    destruct (Z.eqb_spec y 0); try contradiction; eexists; reflexivity.
Qed.

Lemma dict_get_In (d : dict) (k : Z) (default : pynum) :
  dict_get d k default = default \/ In (dict_get d k default) (dict_values d).
Proof.
  induction d as [| [k' v] d IH]; simpl; [now left |].
  destruct (k' =? k); [right; now left |].
  destruct IH as [IH | IH]; [now left | right; now right].
Qed.

(** ** Dates *)

Lemma date_eqb_eq (a b : date) : date_eqb a b = true <-> a = b.
Proof.
  destruct a as [y m d], b as [y' m' d']. unfold date_eqb; simpl.
  rewrite !andb_true_iff, !Z.eqb_eq. split.
  - intros [[-> ->] ->]. reflexivity.
  - intros H. injection H as -> -> ->. auto.
Qed.

Lemma datetime_jan1 (y : Z) :
  1 <= y <= 9999 -> datetime y 1 1 = Ok (mkDate y 1 1).
Proof.
  intros [H1 H2]. unfold datetime.
  apply Z.leb_le in H1, H2. rewrite H1, H2. reflexivity.
Qed.

Lemma toordinal_jan1_range (y : Z) :
  1 <= y <= 9999 -> 1 <= toordinal (mkDate y 1 1) <= MAXORDINAL.
Proof.
  intros Hy. unfold toordinal, days_before_year, days_before_month, MAXORDINAL.
  cbn [year month day].
  change (table_at DAYS_BEFORE_MONTH 1) with 0.
  change ((2 <? 1) && isleap y) with false. cbv iota.
  Z.to_euclidean_division_equations. lia.
Qed.

Lemma target_years_checked : forallb year_checks target_years = true.
Proof.
  vm_compute. reflexivity.
Qed.

Lemma year_checks_target (y : Z) :
  2020 <= y <= 2100 -> year_checks y = true.
Proof.
  intros Hy. pose proof target_years_checked as H.
  rewrite forallb_forall in H. apply H. unfold target_years.
  apply in_map_iff. exists (Z.to_nat (y - 2020)).
  split; [lia | apply in_seq; lia].
Qed.

Lemma year_checks_facts (y : Z) :
  year_checks y = true ->
  List.length (calendar_days y) = (if isleap y then 366%nat else 365%nat)
  /\ dates_from (mkDate y 1 1) 0 (calendar_days y) = true
  /\ chain_ok (calendar_days y) = true
  /\ hd_error (calendar_days y) = Some (mkDate y 1 1)
  /\ last (calendar_days y) (mkDate 0 0 0) = mkDate y 12 31.
Proof.
  unfold year_checks. cbv zeta. rewrite !andb_true_iff.
  intros [[[[Hlen Hdates] Hchain] Hhd] Hlast].
  split; [now apply Nat.eqb_eq |].
  split; [exact Hdates |]. split; [exact Hchain |].
  split; [| now apply date_eqb_eq].
  destruct (calendar_days y) as [| d l]; [discriminate |].
  apply date_eqb_eq in Hhd. now subst.
Qed.

Lemma chain_ok_nth (l : list date) :
  chain_ok l = true ->
  forall i a b, nth_error l i = Some a -> nth_error l (S i) = Some b ->
    b = next_day a /\ toordinal b = toordinal a + 1.
Proof.
  induction l as [| x l IH]; intros Hc i a b Ha Hb.
  - destruct i; discriminate.
  - destruct l as [| x' l]; [destruct i; simpl in Hb; [discriminate | destruct i; discriminate] |].
    cbn [chain_ok] in Hc. rewrite !andb_true_iff in Hc.
    destruct Hc as [[Hnext Hord] Hrest].
    destruct i as [| i].
    + simpl in Ha, Hb. injection Ha as <-. injection Hb as <-.
      apply date_eqb_eq in Hnext. apply Z.eqb_eq in Hord. now split.
    + apply (IH Hrest i); assumption.
Qed.

(** ** The calendar *)

Lemma calendar_row_eq (m : dict) (mx : pynum) (trips : list Trip)
    (start : date) (i : nat) :
  calendar_row m mx trips start i
  = (d <- add_days start (Z.of_nat i) ;;
     p <- truediv (dict_get m (month d) (PyInt 0)) mx ;;
     Ok (row_of d p trips)).
Proof.
  unfold calendar_row.
  destruct (add_days start (Z.of_nat i)) as [d |]; [| reflexivity].
  cbn [bind].
  destruct (truediv (dict_get m (month d) (PyInt 0)) mx) as [p |];
    [| reflexivity].
  cbn [bind]. unfold row_of, day_features. cbv zeta.
  destruct (classify_band _) as [band reason]. reflexivity.
Qed.

(** When the pressure of every month can be computed, the loop returns one
    row for each date of a run of consecutive days. *)
Lemma calendar_rows_of_dates (m : dict) (mx : pynum) (trips : list Trip)
    (start : date) (Q : npfloat -> Prop) :
  (forall mo, exists p, truediv (dict_get m mo (PyInt 0)) mx = Ok p /\ Q p) ->
  forall l s, dates_from start s l = true ->
  exists rows,
    mapM (calendar_row m mx trips start) (seq s (List.length l)) = Ok rows
    /\ Forall2 (fun d r => exists p, Q p /\ r = row_of d p trips) l rows.
Proof.
  intros Hdiv. induction l as [| d l IH]; intros s Hd.
  - exists []. split; [reflexivity | constructor].
  - cbn [dates_from] in Hd. apply andb_true_iff in Hd. destruct Hd as [Hd Hl].
    destruct (add_days start (Z.of_nat s)) as [d' |] eqn:Hadd; [| discriminate].
    apply date_eqb_eq in Hd. subst d'.
    destruct (Hdiv (month d)) as (p & Hp & HQ).
    destruct (IH (S s) Hl) as (rows & Hrows & Hall).
    exists (row_of d p trips :: rows). cbn [List.length seq mapM].
    rewrite calendar_row_eq, Hadd. cbn [bind]. rewrite Hp. cbn [bind].
    rewrite Hrows. cbn [bind]. split; [reflexivity |].
    constructor; [now exists p | exact Hall].
Qed.

Lemma Forall2_row_dates (Q : npfloat -> Prop) (trips : list Trip)
    (l : list date) (rows : list CalendarRow) :
  Forall2 (fun d r => exists p, Q p /\ r = row_of d p trips) l rows ->
  map Full_Date rows = l.
Proof.
  induction 1 as [| d r l rows (p & _ & ->) _ IH]; simpl; [reflexivity |].
  now rewrite IH.
Qed.

Lemma Forall2_row_pressure (Q : npfloat -> Prop) (trips : list Trip)
    (l : list date) (rows : list CalendarRow) :
  Forall2 (fun d r => exists p, Q p /\ r = row_of d p trips) l rows ->
  forall r, In r rows -> exists p, Q p /\ Row_Coach_Pressure r = round2 p.
Proof.
  induction 1 as [| d r0 l rows (p & HQ & ->) _ IH]; intros r Hr.
  - contradiction.
  - destruct Hr as [<- | Hr]; [now exists p | now apply IH].
Qed.

(** In a target year, with a divisor [mx] under which every month's
    pressure can be computed, the calendar is built. *)
Lemma build_calendar_target_year (y : Z) (m : dict) (mx : pynum)
    (trips : list Trip) (Q : npfloat -> Prop) :
  2020 <= y <= 2100 ->
  py_max (dict_values m) = Ok mx ->
  (forall mo, exists p, truediv (dict_get m mo (PyInt 0)) mx = Ok p /\ Q p) ->
  exists rows,
    build_calendar y m trips = Ok rows
    /\ Forall2 (fun d r => exists p, Q p /\ r = row_of d p trips)
         (calendar_days y) rows.
Proof.
  intros Hy Hmax Hdiv.
  destruct (year_checks_facts y (year_checks_target y Hy))
    as (Hlen & Hdates & _).
  unfold build_calendar. rewrite Hmax. cbn [bind].
  rewrite datetime_jan1 by lia. cbn [bind]. rewrite <- Hlen.
  now apply calendar_rows_of_dates with (Q := Q).
Qed.

(** C4: in every target year from 2020 to 2100, with a pressure map that
    has a positive total and any trips, the calendar has 366 rows in a leap
    year and 365 otherwise; its dates are the calendar days of the year, the
    first January 1, the last December 31, each the day after the one
    before. *)
Theorem C4_one_row_per_calendar_day (Y : Z) (monthly_totals : dict)
    (trips : list Trip) :
  2020 <= Y <= 2100 ->
  valid_totals monthly_totals ->
  exists rows,
    build_calendar Y monthly_totals trips = Ok rows
    /\ List.length rows = (if isleap Y then 366%nat else 365%nat)
    /\ map Full_Date rows = calendar_days Y
    /\ hd_error (map Full_Date rows) = Some (mkDate Y 1 1)
    /\ last (map Full_Date rows) (mkDate 0 0 0) = mkDate Y 12 31
    /\ forall i a b,
         nth_error rows i = Some a -> nth_error rows (S i) = Some b ->
         Full_Date b = next_day (Full_Date a)
         /\ toordinal (Full_Date b) = toordinal (Full_Date a) + 1.
Proof.
  intros HY Hvalid.
  destruct (py_max_valid _ Hvalid) as (mx & Hmax & Hpos).
  destruct (build_calendar_target_year Y monthly_totals mx trips
              (fun _ => True) HY Hmax) as (rows & Hrun & Hall).
  { intros mo. destruct (truediv_nonzero (dict_get monthly_totals mo (PyInt 0)) mx)
      as [q Hq]; [lia |]. now exists (Finite q). }
  destruct (year_checks_facts Y (year_checks_target Y HY))
    as (Hlen & _ & Hchain & Hhd & Hlast).
  pose proof (Forall2_row_dates _ _ _ _ Hall) as Hdates.
  exists rows. split; [exact Hrun |]. split; [| split; [exact Hdates |]].
  - rewrite <- Hlen, <- Hdates. now rewrite length_map.
  - rewrite Hdates. split; [exact Hhd |]. split; [exact Hlast |].
    intros i a b Ha Hb.
    apply (chain_ok_nth _ Hchain i); rewrite <- Hdates;
      now apply map_nth_error.
Qed.

(** C4 at the leap year 2024. *)
Lemma C4_one_row_per_calendar_day_witness :
  exists rows,
    build_calendar 2024 scenario_totals [mkTrip (mkDate 2024 2 29) 1] = Ok rows
    /\ List.length rows = (if isleap 2024 then 366%nat else 365%nat)
    /\ map Full_Date rows = calendar_days 2024
    /\ hd_error (map Full_Date rows) = Some (mkDate 2024 1 1)
    /\ last (map Full_Date rows) (mkDate 0 0 0) = mkDate 2024 12 31
    /\ forall i a b,
         nth_error rows i = Some a -> nth_error rows (S i) = Some b ->
         Full_Date b = next_day (Full_Date a)
         /\ toordinal (Full_Date b) = toordinal (Full_Date a) + 1.
Proof.
  apply C4_one_row_per_calendar_day; [lia |].
  exists 1, (PyInt 100). split; [simpl; tauto | simpl; lia].
Defined.

Lemma py_max_all (m : dict) (v : pynum) :
  m <> [] -> (forall k x, In (k, x) m -> x = v) ->
  py_max (dict_values m) = Ok v.
Proof.
  intros Hne Hall. destruct m as [| [k x] m]; [contradiction |].
  cbn [dict_values map snd py_max].
  destruct (max_from_bounds (map snd m) x) as (_ & _ & Hmem).
  f_equal. destruct Hmem as [<- | Hmem].
  - apply (Hall k). now left.
  - apply in_map_iff in Hmem. destruct Hmem as ([k' x'] & Hx' & Hin).
    simpl in Hx'. rewrite <- Hx'. apply (Hall k'). now right.
Qed.

Lemma dict_get_all (m : dict) (v default : pynum) (k : Z) :
  (forall k' x, In (k', x) m -> x = v) ->
  dict_get m k default = v \/ dict_get m k default = default.
Proof.
  intros Hall. destruct (dict_get_In m k default) as [H | H]; [now right |].
  left. apply in_map_iff in H. destruct H as ([k' x] & Hx & Hin).
  simpl in Hx. rewrite <- Hx. now apply (Hall k').
Qed.

(** C8, as stated, fails: the map that the extraction returns for a summary
    with a January column and no data row has the single total 0, and the
    calendar of 2023 is built from it without an error, the coach pressure
    of its rows being NaN. *)
Lemma C8_all_zero_totals_build_a_calendar :
  extract_monthly_totals header_only_summary = Ok [(1, NpInt64 0)]
  /\ (forall k v, In (k, v) [(1, NpInt64 0)] -> num_val v = 0)
  /\ exists rows,
       build_calendar 2023 [(1, NpInt64 0)] [mkTrip (mkDate 2023 1 6) 1]
       = Ok rows
       /\ List.length rows = 365%nat
       /\ option_map Row_Coach_Pressure (hd_error rows) = Some NaN.
Proof.
  split; [reflexivity |]. split.
  - intros k v [H | []]. now injection H as <- <-.
  - eexists. split; [vm_compute; reflexivity |]. split; reflexivity.
Qed.

(** C8, amended: with an empty map the builder raises (a ValueError, at the
    maximum) before any row; with totals that are all the plain integer 0 it
    raises ZeroDivisionError on the first day; with totals that are all the
    numpy integer 0, which is what the extraction returns, nothing is raised
    and every row has the pressure NaN; with at least one positive total the
    division gives a number for every month, hence for every day. *)
Theorem C8_pressure_ratio_division (year : Z) (monthly_totals : dict)
    (trips : list Trip) :
  (monthly_totals = [] ->
   build_calendar year monthly_totals trips = Raise ValueError)
  /\ (monthly_totals <> [] ->
      (forall k v, In (k, v) monthly_totals -> v = PyInt 0) ->
      1 <= year <= 9999 ->
      build_calendar year monthly_totals trips = Raise ZeroDivisionError)
  /\ (monthly_totals <> [] ->
      (forall k v, In (k, v) monthly_totals -> v = NpInt64 0) ->
      2020 <= year <= 2100 ->
      exists rows,
        build_calendar year monthly_totals trips = Ok rows
        /\ forall r, In r rows -> Row_Coach_Pressure r = NaN)
  /\ (valid_totals monthly_totals ->
      exists max_pressure,
        py_max (dict_values monthly_totals) = Ok max_pressure
        /\ (forall mo, exists q,
              truediv (dict_get monthly_totals mo (PyInt 0)) max_pressure
              = Ok (Finite q))
        /\ (2020 <= year <= 2100 ->
            exists rows,
              build_calendar year monthly_totals trips = Ok rows
              /\ forall r, In r rows ->
                   exists q, Row_Coach_Pressure r = Finite q)).
Proof.
  split; [| split; [| split]].
  - intros ->. reflexivity.
  - intros Hne Hall Hy. unfold build_calendar.
    rewrite (py_max_all _ (PyInt 0) Hne Hall). cbn [bind].
    rewrite (datetime_jan1 _ Hy). cbn [bind].
    assert (Hseq : exists n, (if isleap year then 366%nat else 365%nat) = S n).
    { destruct (isleap year); eexists; reflexivity. }
    destruct Hseq as [n ->]. cbn [seq mapM].
    rewrite calendar_row_eq. unfold add_days.
    pose proof (toordinal_jan1_range _ Hy) as [Hlo Hhi].
    change (Z.of_nat 0) with 0. rewrite Z.add_0_r.
    apply Z.leb_le in Hlo, Hhi. rewrite Hlo, Hhi. cbn [andb bind].
    destruct (dict_get_all monthly_totals (PyInt 0) (PyInt 0)
                (month (fromordinal (toordinal (mkDate year 1 1)))) Hall)
      as [-> | ->]; reflexivity.
  - intros Hne Hall Hy.
    destruct (build_calendar_target_year year monthly_totals (NpInt64 0) trips
                (fun p => p = NaN) Hy (py_max_all _ _ Hne Hall))
      as (rows & Hrun & Hrows).
    { intros mo. exists NaN. split; [| reflexivity].
      destruct (dict_get_all monthly_totals (NpInt64 0) (PyInt 0) mo Hall)
        as [-> | ->]; reflexivity. }
    exists rows. split; [exact Hrun |]. intros r Hr.
    destruct (Forall2_row_pressure _ _ _ _ Hrows r Hr) as (p & -> & ->).
    reflexivity.
  - intros Hvalid.
    destruct (py_max_valid _ Hvalid) as (mx & Hmax & Hpos).
    assert (Hdiv : forall mo, exists q,
               truediv (dict_get monthly_totals mo (PyInt 0)) mx
               = Ok (Finite q)).
    { intros mo. apply truediv_nonzero. lia. }
    exists mx. split; [exact Hmax |]. split; [exact Hdiv |].
    intros Hy.
    destruct (build_calendar_target_year year monthly_totals mx trips
                (fun p => exists q, p = Finite q) Hy Hmax)
      as (rows & Hrun & Hrows).
    { intros mo. destruct (Hdiv mo) as [q Hq]. exists (Finite q).
      split; [exact Hq | now exists q]. }
    exists rows. split; [exact Hrun |]. intros r Hr.
    destruct (Forall2_row_pressure _ _ _ _ Hrows r Hr) as (p & [q ->] & ->).
    eexists. reflexivity.
Qed.

(** C8, amended, at the empty map, at two maps of zeros and at the totals
    of the scenario. *)
Lemma C8_pressure_ratio_division_witness :
  build_calendar 2023 [] [] = Raise ValueError
  /\ build_calendar 2023 [(1, PyInt 0); (2, PyInt 0)] [] = Raise ZeroDivisionError
  /\ (exists rows,
        build_calendar 2023 [(1, NpInt64 0); (2, NpInt64 0)] [] = Ok rows
        /\ forall r, In r rows -> Row_Coach_Pressure r = NaN)
  /\ (exists max_pressure,
        py_max (dict_values scenario_totals) = Ok max_pressure
        /\ (forall mo, exists q,
              truediv (dict_get scenario_totals mo (PyInt 0)) max_pressure
              = Ok (Finite q))
        /\ (2020 <= 2023 <= 2100 ->
            exists rows,
              build_calendar 2023 scenario_totals [] = Ok rows
              /\ forall r, In r rows ->
                   exists q, Row_Coach_Pressure r = Finite q)).
Proof.
  split; [| split; [| split]].
  - now apply (proj1 (C8_pressure_ratio_division 2023 [] [])).
  - apply (proj1 (proj2 (C8_pressure_ratio_division 2023
                           [(1, PyInt 0); (2, PyInt 0)] []))).
    + discriminate.
    + intros k v [H | [H | []]]; now injection H as <- <-.
    + lia.
  - apply (proj1 (proj2 (proj2 (C8_pressure_ratio_division 2023
                                  [(1, NpInt64 0); (2, NpInt64 0)] [])))).
    + discriminate.
    + intros k v [H | [H | []]]; now injection H as <- <-.
    + lia.
  - apply (proj2 (proj2 (proj2 (C8_pressure_ratio_division 2023
                                  scenario_totals [])))).
    exists 1, (PyInt 100). split; [simpl; tauto | simpl; lia].
Defined.

Lemma filter_none {A : Type} (f : A -> bool) (l : list A) :
  (forall x, In x l -> f x = false) -> filter f l = [].
Proof.
  induction l as [| x l IH]; intros H; simpl; [reflexivity |].
  rewrite (H x (or_introl eq_refl)). apply IH. intros y Hy. apply H. now right.
Qed.

(** A day without a trip has the trip count 0 and the average complexity 0,
    whatever its pressure. *)
Lemma day_features_no_trips (d : date) (p : npfloat) (trips : list Trip) :
  (forall t, In t trips -> Date t <> d) ->
  Trips_Scheduled (day_features d p trips) = 0
  /\ Avg_Complexity (day_features d p trips) = of_int 0.
Proof.
  intros H. unfold day_features. cbv zeta.
  rewrite filter_none; [split; reflexivity |].
  intros t Ht. destruct (date_eqb (Date t) d) eqn:E; [| reflexivity].
  apply date_eqb_eq in E. now apply H in Ht.
Qed.

(** C9: in a calendar that is built, the row of every day on which no trip
    departs (every row, when there is no trip at all) has the trip count 0
    and the average complexity 0, a number and not NaN; the record that was
    classified for that day has the same two values. *)
Theorem C9_day_without_trips (year : Z) (monthly_totals : dict)
    (trips : list Trip) (rows : list CalendarRow) (r : CalendarRow) :
  build_calendar year monthly_totals trips = Ok rows ->
  In r rows ->
  (forall t, In t trips -> Date t <> Full_Date r) ->
  Row_Trips_Scheduled r = 0
  /\ Avg_Trip_Complexity r = of_int 0
  /\ Avg_Trip_Complexity r <> NaN
  /\ exists pressure,
       Trips_Scheduled (day_features (Full_Date r) pressure trips) = 0
       /\ Avg_Complexity (day_features (Full_Date r) pressure trips) = of_int 0
       /\ (Suggested_Band r, Reason r)
          = classify_band (day_features (Full_Date r) pressure trips).
Proof.
  intros Hrun Hr Hnone. unfold build_calendar in Hrun.
  destruct (py_max (dict_values monthly_totals)) as [mx |]; [| discriminate].
  cbn [bind] in Hrun.
  destruct (datetime year 1 1) as [start |]; [| discriminate].
  cbn [bind] in Hrun.
  destruct (mapM_In _ _ _ Hrun r Hr) as (i & _ & Hrow).
  rewrite calendar_row_eq in Hrow.
  destruct (add_days start (Z.of_nat i)) as [d |]; [| discriminate].
  cbn [bind] in Hrow.
  destruct (truediv (dict_get monthly_totals (month d) (PyInt 0)) mx)
    as [p |]; [| discriminate].
  cbn [bind] in Hrow. injection Hrow as <-.
  cbn [Full_Date row_of] in Hnone.
  destruct (day_features_no_trips d p trips Hnone) as [Hcount Havg].
  unfold row_of. cbv zeta.
  cbn [Full_Date Row_Trips_Scheduled Avg_Trip_Complexity Suggested_Band Reason].
  rewrite Havg, Hcount.
  split; [reflexivity |]. split; [reflexivity |]. split; [discriminate |].
  exists p. rewrite Hcount, Havg.
  split; [reflexivity |]. split; [reflexivity |].
  now destruct (classify_band (day_features d p trips)).
Qed.

(** C9 at January 1 of the scenario, whose only trip departs on January 6. *)
Lemma C9_day_without_trips_witness :
  Row_Trips_Scheduled scenario_new_year_row = 0
  /\ Avg_Trip_Complexity scenario_new_year_row = of_int 0
  /\ Avg_Trip_Complexity scenario_new_year_row <> NaN
  /\ exists pressure,
       Trips_Scheduled
         (day_features (Full_Date scenario_new_year_row) pressure
            [mkTrip (mkDate 2023 1 6) 1]) = 0
       /\ Avg_Complexity
            (day_features (Full_Date scenario_new_year_row) pressure
               [mkTrip (mkDate 2023 1 6) 1]) = of_int 0
       /\ (Suggested_Band scenario_new_year_row, Reason scenario_new_year_row)
          = classify_band
              (day_features (Full_Date scenario_new_year_row) pressure
                 [mkTrip (mkDate 2023 1 6) 1]).
Proof.
  destruct (build_calendar 2023 scenario_totals [mkTrip (mkDate 2023 1 6) 1])
    as [rows | e] eqn:E.
  - apply (C9_day_without_trips 2023 scenario_totals
             [mkTrip (mkDate 2023 1 6) 1] rows scenario_new_year_row E).
    + vm_compute in E. injection E as <-. left. reflexivity.
    + intros t [<- | []]. discriminate.
  - vm_compute in E. discriminate.
Defined.

(** * Further properties of the pipeline *)

(** ** The band classifier *)

Lemma band_score_points (row : DayFeatures) :
  band_score row = float_add (of_int (band_points row)) (Avg_Complexity row).
Proof.
  reflexivity.
Qed.


Lemma trips_points_mono (n1 n2 : Z) :
  n2 <= n1 -> trips_points n2 <= trips_points n1.
Proof.
  intros H. unfold trips_points.
  destruct (Z.leb_spec 5 n2), (Z.leb_spec 5 n1),
           (Z.leb_spec 3 n2), (Z.leb_spec 3 n1); lia.
Qed.

Lemma band_of_score_mono (s1 s2 : npfloat) :
  float_ge s1 s2 = true ->
  band_discount (fst (band_of_score s2)) <= band_discount (fst (band_of_score s1)).
Proof.
  intros Hge. unfold band_of_score.
  assert (Hup : forall t, float_ge s2 (of_int t) = true ->
                          float_ge s1 (of_int t) = true).
  { intros t. now apply float_ge_trans. }
  destruct (float_ge s2 (of_int 7)) eqn:H7; [rewrite (Hup 7 H7); reflexivity |].
  destruct (float_ge s2 (of_int 6)) eqn:H6.
  { rewrite (Hup 6 H6). destruct (float_ge s1 (of_int 7)); now vm_compute. }
  destruct (float_ge s2 (of_int 5)) eqn:H5.
  { rewrite (Hup 5 H5).
    destruct (float_ge s1 (of_int 7)), (float_ge s1 (of_int 6)); now vm_compute. }
  destruct (float_ge s2 (of_int 4)) eqn:H4.
  { rewrite (Hup 4 H4).
    destruct (float_ge s1 (of_int 7)), (float_ge s1 (of_int 6)),
             (float_ge s1 (of_int 5)); now vm_compute. }
  destruct (float_ge s2 (of_int 3)) eqn:H3.
  { rewrite (Hup 3 H3).
    destruct (float_ge s1 (of_int 7)), (float_ge s1 (of_int 6)),
             (float_ge s1 (of_int 5)), (float_ge s1 (of_int 4)); now vm_compute. }
  destruct (float_ge s1 (of_int 7)), (float_ge s1 (of_int 6)),
           (float_ge s1 (of_int 5)), (float_ge s1 (of_int 4)),
           (float_ge s1 (of_int 3)); now vm_compute.
Qed.



(** X2: raising the coach pressure of a record, its other features kept,
    never lowers the discount of the band it is given. *)
Theorem X2_band_monotone_in_pressure (r1 r2 : DayFeatures) :
  Weekday r1 = Weekday r2 ->
  Season r1 = Season r2 ->
  Trips_Scheduled r1 = Trips_Scheduled r2 ->
  float_eq (Avg_Complexity r1) (Avg_Complexity r2) = true ->
  float_ge (Coach_Pressure r1) (Coach_Pressure r2) = true ->
  band_discount (fst (classify_band r2)) <= band_discount (fst (classify_band r1)).
Proof.
  intros Hw Hs Ht Hc Hp. unfold classify_band.
  apply band_of_score_mono. rewrite !band_score_points.
  apply float_add_mono; [| exact Hc].
  unfold band_points. rewrite Hw, Hs, Ht.
  pose proof (pressure_points_mono _ _ Hp). lia.
Qed.

(** X2 at two records with pressure 0.95 and 0.6. *)
Lemma X2_band_monotone_in_pressure_witness :
  band_discount
    (fst (classify_band
            (mkDayFeatures (Finite (6 # 10)) "Monday" "Spring" 4 (Finite 0))))
  <= band_discount
       (fst (classify_band
               (mkDayFeatures (Finite (95 # 100)) "Monday" "Spring" 4 (Finite 0)))).
Proof.
  apply X2_band_monotone_in_pressure; reflexivity.
Defined.

(** X3: more trips on a day, its other features kept, never lower its score
    nor the discount of its band. *)
Theorem X3_band_monotone_in_trips (r1 r2 : DayFeatures) :
  Coach_Pressure r1 = Coach_Pressure r2 ->
  Weekday r1 = Weekday r2 ->
  Season r1 = Season r2 ->
  float_eq (Avg_Complexity r1) (Avg_Complexity r2) = true ->
  Trips_Scheduled r2 <= Trips_Scheduled r1 ->
  float_ge (band_score r1) (band_score r2) = true
  /\ band_discount (fst (classify_band r2))
     <= band_discount (fst (classify_band r1)).
Proof.
  intros Hp Hw Hs Hc Ht.
  assert (Hscore : float_ge (band_score r1) (band_score r2) = true).
  { rewrite !band_score_points. apply float_add_mono; [| exact Hc].
    unfold band_points. rewrite Hp, Hw, Hs.
    pose proof (trips_points_mono _ _ Ht). lia. }
  split; [exact Hscore |]. unfold classify_band.
  now apply band_of_score_mono.
Qed.

(** X3 at two records with 6 trips and 2 trips. *)
Lemma X3_band_monotone_in_trips_witness :
  float_ge
    (band_score (mkDayFeatures (Finite 1) "Monday" "Spring" 6 (Finite 0)))
    (band_score (mkDayFeatures (Finite 1) "Monday" "Spring" 2 (Finite 0)))
  = true
  /\ band_discount
       (fst (classify_band
               (mkDayFeatures (Finite 1) "Monday" "Spring" 2 (Finite 0))))
     <= band_discount
          (fst (classify_band
                  (mkDayFeatures (Finite 1) "Monday" "Spring" 6 (Finite 0)))).
Proof.
  apply X3_band_monotone_in_trips; try reflexivity. simpl. lia.
Defined.

(** X4: a NaN coach pressure earns no pressure point, so that the band of
    the day is never above the band that any other pressure would give it;
    a NaN average complexity makes every threshold comparison false, so
    that the band is 'E+ (25%)' whatever the other features. *)
Theorem X4_nan_features (w s : string) (n : Z) (p c : npfloat) :
  pressure_points NaN = 0
  /\ band_discount (fst (classify_band (mkDayFeatures NaN w s n c)))
     <= band_discount (fst (classify_band (mkDayFeatures p w s n c)))
  /\ classify_band (mkDayFeatures p w s n NaN) = band_Eplus.
Proof.
  split; [reflexivity |]. split.
  - unfold classify_band. rewrite !band_score_points.
    cbn [Avg_Complexity].
    destruct (float_eq c c) eqn:Hc.
    + apply band_of_score_mono, float_add_mono; [| exact Hc].
      unfold band_points. cbn [Coach_Pressure Weekday Season Trips_Scheduled].
      change (pressure_points NaN) with 0.
      assert (0 <= pressure_points p)
        by (unfold pressure_points;
            repeat match goal with
                   | |- context [if ?b then _ else _] => destruct b
                   end; lia).
      lia.
    + destruct c as [q | | |]; try discriminate.
      cbn [float_eq] in Hc.
      assert (Qeq_bool q q = true) by (apply Qeq_bool_iff; reflexivity).
      congruence.
  - unfold classify_band. rewrite band_score_points.
    cbn [Avg_Complexity float_add of_int]. reflexivity.
Qed.

(** ** Seasons *)

(** X5: the season points of a month, through [get_season]: 2 for March to
    May, 0 for June to August and 1 for every other integer, the invalid
    month numbers included, which [get_season] takes for 'Fall'. *)
Theorem X5_season_points_of_month (m : Z) :
  season_points (get_season m)
  = (if (3 <=? m) && (m <=? 5) then 2
     else if (6 <=? m) && (m <=? 8) then 0 else 1)
  /\ (~ 1 <= m <= 12 -> get_season m = "Fall").
Proof.
  unfold get_season, Z_in. cbn [existsb]. split.
  - repeat match goal with
           | |- context [Z.eqb m ?k] => destruct (Z.eqb_spec m k); [subst; reflexivity |]
           end.
    cbn [orb].
    destruct (Z.leb_spec 3 m), (Z.leb_spec m 5), (Z.leb_spec 6 m),
             (Z.leb_spec m 8); cbn [andb]; try reflexivity; lia.
  - intros H.
    repeat match goal with
           | |- context [Z.eqb m ?k] => destruct (Z.eqb_spec m k); [lia |]
           end.
    reflexivity.
Qed.

(** X5 at the month number 13. *)
Lemma X5_season_points_of_month_witness : get_season 13 = "Fall".
Proof.
  apply (proj2 (X5_season_points_of_month 13)). lia.
Defined.

(** ** Monthly totals *)





Lemma int_of_digits_lower (s : string) (acc : Z) :
  0 <= acc -> acc <= int_of_digits acc s.
Proof.
  revert acc. induction s as [| c s IH]; intros acc H; simpl; [lia |].
  specialize (IH (acc * 10 + Z.of_nat (nat_of_ascii c - 48))). lia.
Qed.

Lemma astype_int_eq (digits : list string) :
  astype_int digits
  = if forallb (fun s => int_of_digits 0 s <=? INT64_MAX) digits
    then Ok (map (int_of_digits 0) digits)
    else Raise OverflowError.
Proof.
  unfold astype_int.
  induction digits as [| s digits IH]; cbn [mapM forallb map]; [reflexivity |].
  destruct (int_of_digits 0 s <=? INT64_MAX); cbn [bind andb]; [| reflexivity].
  rewrite IH. now destruct (forallb _ digits).
Qed.

Lemma month_values_ok (data : list (list cell)) (i : nat) (vals : list Z) :
  month_values data i = Ok vals ->
  vals = parsed_cells data i /\ Forall (fun v => 0 <= v <= INT64_MAX) vals.
Proof.
  unfold month_values, parsed_cells. rewrite astype_int_eq.
  set (digits := dropna _).
  destruct (forallb _ digits) eqn:E; [| discriminate].
  intros H. injection H as <-. split; [reflexivity |].
  rewrite forallb_forall in E. apply Forall_forall. intros v Hv.
  apply in_map_iff in Hv. destruct Hv as (s & <- & Hs).
  split; [now apply int_of_digits_lower | now apply Z.leb_le, E].
Qed.

Lemma month_values_raise (data : list (list cell)) (i : nat) (e : exn) :
  month_values data i = Raise e -> e = OverflowError.
Proof.
  unfold month_values. rewrite astype_int_eq.
  destruct (forallb _ _); [discriminate | congruence].
Qed.

Lemma wrap64_range (z : Z) : in_int64 (wrap64 z).
Proof.
  unfold in_int64, wrap64, INT64_MAX.
  pose proof (Z.mod_pos_bound (z + 2 ^ 63) (2 ^ 64) eq_refl). lia.
Qed.

Lemma wrap64_small (z : Z) : in_int64 z -> wrap64 z = z.
Proof.
  unfold in_int64, wrap64, INT64_MAX. intros H.
  rewrite Z.mod_small; lia.
Qed.

Lemma fold_left_add_shift (l : list Z) (a : Z) :
  fold_left Z.add l a = a + fold_left Z.add l 0.
Proof.
  revert a. induction l as [| x l IH]; intros a; simpl; [lia |].
  rewrite (IH (a + x)), (IH x). lia.
Qed.

Lemma sum_nonneg (l : list Z) (b : Z) :
  Forall (fun v => 0 <= v <= b) l -> 0 <= fold_left Z.add l 0.
Proof.
  induction 1 as [| x l Hx _ IH]; simpl; [lia |].
  rewrite fold_left_add_shift. lia.
Qed.

(** What a completed pass over the months leaves in the dict. *)
Lemma extract_loop_ok (header : list cell) (data : list (list cell))
    (months : list (string * Z)) :
  NoDup (map snd months) ->
  forall acc totals,
    extract_loop header data months acc = Ok totals ->
    (forall name col, In (name, col) months ->
       (positions name header 0 = [] -> dict_find totals col = dict_find acc col)
       /\ (forall i, positions name header 0 = [i] ->
             month_values data i = Ok (parsed_cells data i)
             /\ dict_find totals col
                = Some (NpInt64 (wrap64 (fold_left Z.add (parsed_cells data i) 0)))))
    /\ (forall col, ~ In col (map snd months) ->
          dict_find totals col = dict_find acc col).
Proof.
  induction months as [| [m c] months IH]; intros Hnd acc totals Hrun.
  - simpl in Hrun. injection Hrun as <-. split; [contradiction | reflexivity].
  - inversion Hnd as [| ? ? Hc Hnd']; subst. cbn [extract_loop] in Hrun.
    assert (Hfresh : forall name col, In (name, col) months -> c <> col).
    { intros name col H ->. apply Hc. change col with (snd (name, col)).
      now apply in_map. }
    destruct (positions m header 0) as [| i [| i' ps]] eqn:Epos;
      [| | discriminate].
    + destruct (IH Hnd' acc totals Hrun) as [Hin Hout]. split.
      * intros name col [Heq | H]; [| now apply Hin].
        injection Heq as <- <-. split.
        -- intros _. now apply Hout.
        -- intros i Hi. rewrite Epos in Hi. discriminate.
      * intros col Hcol. apply Hout. simpl in Hcol. tauto.
    + destruct (month_values data i) as [vals |] eqn:Evals; [| discriminate].
      cbn [bind] in Hrun.
      destruct (month_values_ok _ _ _ Evals) as [-> _].
      destruct (IH Hnd' _ totals Hrun) as [Hin Hout]. split.
      * intros name col [Heq | H].
        -- injection Heq as <- <-. split.
           ++ intros Hi. rewrite Epos in Hi. discriminate.
           ++ intros j Hj. rewrite Epos in Hj. injection Hj as <-.
              split; [exact Evals |].
              rewrite (Hout c Hc), dict_find_set, Z.eqb_refl. reflexivity.
        -- destruct (Hin name col H) as [Hnone Hone]. split; [| exact Hone].
           intros Hp. rewrite (Hnone Hp), dict_find_set.
           destruct (Z.eqb_spec c col) as [Heq | _]; [| reflexivity].
           now apply Hfresh in H.
      * intros col Hcol. rewrite Hout by (simpl in Hcol; tauto).
        rewrite dict_find_set.
        destruct (Z.eqb_spec c col) as [-> | _]; [| reflexivity].
        simpl in Hcol. tauto.
Qed.

Lemma month_map_NoDup : NoDup (map snd month_map).
Proof.
  simpl. repeat (constructor; [simpl; intuition discriminate |]). constructor.
Qed.

(** X7: when the extraction succeeds, the total of a month named once in
    the header row is the sum, wrapped to 64 bits, of the integers read in
    its column, each between 0 and the largest int64; it is their exact
    sum, and not negative, when that sum fits; a month that the header row
    does not name is left out of the map. *)
Theorem X7_month_total_is_column_sum (tbn_df : list (list cell))
    (header : list cell) (data : list (list cell)) (totals : dict)
    (name : string) (col : Z) :
  skipn 4 tbn_df = header :: data ->
  extract_monthly_totals tbn_df = Ok totals ->
  In (name, col) month_map ->
  (positions name header 0 = [] -> dict_find totals col = None)
  /\ (forall i, positions name header 0 = [i] ->
        let vals := parsed_cells data i in
        dict_find totals col = Some (NpInt64 (wrap64 (fold_left Z.add vals 0)))
        /\ Forall (fun v => 0 <= v <= INT64_MAX) vals
        /\ (fold_left Z.add vals 0 <= INT64_MAX ->
            dict_find totals col = Some (NpInt64 (fold_left Z.add vals 0))
            /\ 0 <= fold_left Z.add vals 0)).
Proof.
  intros Hskip Hrun Hin. unfold extract_monthly_totals in Hrun.
  rewrite Hskip in Hrun.
  destruct (extract_loop_ok header data month_map month_map_NoDup [] totals Hrun)
    as [Hmonths _].
  destruct (Hmonths name col Hin) as [Hnone Hone]. split; [exact Hnone |].
  intros i Hi. cbv zeta. destruct (Hone i Hi) as [Hvals Hfind].
  destruct (month_values_ok _ _ _ Hvals) as [_ Hrange].
  split; [exact Hfind |]. split; [exact Hrange |].
  intros Hfit. pose proof (sum_nonneg _ _ Hrange) as Hpos.
  split; [| exact Hpos]. rewrite Hfind, wrap64_small; [reflexivity |].
  unfold in_int64. lia.
Qed.

(** X7 at a summary with the columns January and February and two data
    rows: the totals are 12 + 30 and 8. *)
Lemma X7_month_total_is_column_sum_witness :
  (positions "January" [Str "January"; Str "February"] 0 = [] ->
   dict_find [(1, NpInt64 42); (2, NpInt64 8)] 1 = None)
  /\ (forall i, positions "January" [Str "January"; Str "February"] 0 = [i] ->
        let vals :=
          parsed_cells [[Str "Trips: 12"; Str "Trips: 8"]; [Str "30 (est.)"; NA]] i in
        dict_find [(1, NpInt64 42); (2, NpInt64 8)] 1
        = Some (NpInt64 (wrap64 (fold_left Z.add vals 0)))
        /\ Forall (fun v => 0 <= v <= INT64_MAX) vals
        /\ (fold_left Z.add vals 0 <= INT64_MAX ->
            dict_find [(1, NpInt64 42); (2, NpInt64 8)] 1
            = Some (NpInt64 (fold_left Z.add vals 0))
            /\ 0 <= fold_left Z.add vals 0)).
Proof.
  apply (X7_month_total_is_column_sum
           [[Str "TBN Summary"; NA]; [NA; NA]; [Str "Region"; Str "East"];
            [NA; NA]; [Str "January"; Str "February"];
            [Str "Trips: 12"; Str "Trips: 8"]; [Str "30 (est.)"; NA]]
           [Str "January"; Str "February"]
           [[Str "Trips: 12"; Str "Trips: 8"]; [Str "30 (est.)"; NA]]
           [(1, NpInt64 42); (2, NpInt64 8)] "January" 1).
  - reflexivity.
  - reflexivity.
  - simpl. tauto.
Defined.

Lemma dict_set_fresh (d : dict) (k : Z) (v : pynum) :
  ~ In k (dict_keys d) ->
  dict_keys (dict_set d k v) = (dict_keys d ++ [k])%list
  /\ dict_values (dict_set d k v) = (dict_values d ++ [v])%list.
Proof.
  unfold dict_keys, dict_values.
  induction d as [| [k' v'] d IH]; intros H; simpl; [now split |].
  destruct (Z.eqb_spec k' k) as [-> | Hne]; [simpl in H; tauto |].
  simpl. destruct IH as [Hk Hv]; [simpl in H; tauto |].
  now rewrite Hk, Hv.
Qed.

Lemma named_positions (header : list cell) (name : string) (col : Z) :
  named header (name, col) = false <-> positions name header 0 = [].
Proof.
  unfold named. cbn [fst]. pose proof (positions_length name header 0) as H.
  destruct (positions name header 0) as [| i ps]; simpl in H.
  - rewrite <- H. split; reflexivity.
  - rewrite <- H. split; discriminate.
Qed.

(** The keys that a completed pass over the months adds to the dict, and the
    values it stores. *)
Lemma extract_loop_keys (header : list cell) (data : list (list cell))
    (months : list (string * Z)) :
  NoDup (map snd months) ->
  forall acc totals,
    (forall col, In col (map snd months) -> ~ In col (dict_keys acc)) ->
    extract_loop header data months acc = Ok totals ->
    dict_keys totals
    = (dict_keys acc ++ map snd (filter (named header) months))%list
    /\ (forall v, In v (dict_values totals) ->
          In v (dict_values acc) \/ exists z, v = NpInt64 z /\ in_int64 z).
Proof.
  induction months as [| [m c] months IH]; intros Hnd acc totals Hfresh Hrun.
  - simpl in Hrun. injection Hrun as <-. simpl. rewrite app_nil_r. auto.
  - inversion Hnd as [| ? ? Hc Hnd']; subst.
    cbn [extract_loop] in Hrun. cbn [filter].
    pose proof (named_positions header m c) as Hnamed.
    destruct (positions m header 0) as [| i [| i' ps]] eqn:Epos;
      [| | discriminate].
    + rewrite (proj2 Hnamed eq_refl). apply (IH Hnd' acc totals); [| exact Hrun].
      intros col Hcol. apply Hfresh. now right.
    + destruct (named header (m, c)) eqn:En;
        [| destruct Hnamed as [Hnamed _]; discriminate (Hnamed eq_refl)].
      destruct (month_values data i) as [vals |]; [| discriminate].
      cbn [bind] in Hrun.
      set (v := NpInt64 (wrap64 (fold_left Z.add vals 0))) in *.
      destruct (dict_set_fresh acc c v) as [Hk Hv];
        [apply Hfresh; now left |].
      destruct (IH Hnd' (dict_set acc c v) totals) as [Hkeys Hvals];
        [| exact Hrun |].
      * intros col Hcol. rewrite Hk, in_app_iff. intros [H | [<- | []]].
        -- revert H. apply Hfresh. now right.
        -- contradiction.
      * split.
        -- rewrite Hkeys, Hk, <- app_assoc. reflexivity.
        -- intros x Hx. destruct (Hvals x Hx) as [H | H]; [| now right].
           rewrite Hv, in_app_iff in H. destruct H as [H | [<- | []]];
             [now left | right].
           eexists. split; [reflexivity | apply wrap64_range].
Qed.

(** X8: the map that the extraction returns has for keys the numbers of the
    months that the header row names, in calendar order, so distinct and
    between 1 and 12, and for values numpy integers within int64. *)
Theorem X8_totals_keys_and_values (tbn_df : list (list cell))
    (header : list cell) (data : list (list cell)) (totals : dict) :
  skipn 4 tbn_df = header :: data ->
  extract_monthly_totals tbn_df = Ok totals ->
  dict_keys totals = map snd (filter (named header) month_map)
  /\ NoDup (dict_keys totals)
  /\ (forall k, In k (dict_keys totals) -> 1 <= k <= 12)
  /\ (forall v, In v (dict_values totals) ->
        exists z, v = NpInt64 z /\ in_int64 z).
Proof.
  intros Hskip Hrun. unfold extract_monthly_totals in Hrun.
  rewrite Hskip in Hrun.
  destruct (extract_loop_keys header data month_map month_map_NoDup [] totals)
    as [Hkeys Hvals]; [intros col _ [] | exact Hrun |].
  assert (Hk : dict_keys totals = map snd (filter (named header) month_map))
    by exact Hkeys.
  clear Hkeys. rename Hk into Hkeys. split; [exact Hkeys |].
  assert (Hsub : forall k, In k (dict_keys totals) -> In k (map snd month_map)).
  { intros k Hk. rewrite Hkeys in Hk. apply in_map_iff in Hk.
    destruct Hk as (mc & <- & Hmc). apply filter_In in Hmc.
    now apply in_map. }
  split; [| split].
  - rewrite Hkeys. clear. generalize month_map_NoDup.
    induction month_map as [| mc l IH]; intros Hnd; simpl; [constructor |].
    inversion Hnd as [| ? ? Hx Hl]; subst.
    destruct (named header mc); [| now apply IH].
    simpl. constructor; [| now apply IH].
    intros H. apply Hx. apply in_map_iff in H. destruct H as (mc' & <- & Hmc').
    apply filter_In in Hmc'. now apply in_map.
  - intros k Hk. apply Hsub in Hk. simpl in Hk.
    repeat (destruct Hk as [<- | Hk]; [lia |]). contradiction.
  - intros v Hv. destruct (Hvals v Hv) as [[] | H]. exact H.
Qed.

(** X8 at a summary whose header row names March and then January. *)
Lemma X8_totals_keys_and_values_witness :
  dict_keys [(1, NpInt64 7); (3, NpInt64 5)]
  = map snd (filter (named [Str "March"; Str "January"]) month_map)
  /\ NoDup (dict_keys [(1, NpInt64 7); (3, NpInt64 5)])
  /\ (forall k, In k (dict_keys [(1, NpInt64 7); (3, NpInt64 5)]) -> 1 <= k <= 12)
  /\ (forall v, In v (dict_values [(1, NpInt64 7); (3, NpInt64 5)]) ->
        exists z, v = NpInt64 z /\ in_int64 z).
Proof.
  apply (X8_totals_keys_and_values
           [[Str "TBN Summary"; NA]; [NA; NA]; [Str "Region"; Str "East"];
            [NA; NA]; [Str "March"; Str "January"]; [Str "5"; Str "7 trips"]]
           [Str "March"; Str "January"] [[Str "5"; Str "7 trips"]]);
    reflexivity.
Defined.






Lemma sum_perm (l l' : list Z) :
  Permutation l l' -> fold_left Z.add l 0 = fold_left Z.add l' 0.
Proof.
  induction 1 as [| x l l' _ IH | x y l | l l' l'' _ IH1 _ IH2]; simpl.
  - reflexivity.
  - rewrite (fold_left_add_shift l x), (fold_left_add_shift l' x). lia.
  - rewrite (fold_left_add_shift l (y + x)), (fold_left_add_shift l (x + y)). lia.
  - congruence.
Qed.




(** ** Dispatch normalization *)

Lemma append_assoc (a b c : string) : (a ++ b) ++ c = a ++ (b ++ c).
Proof.
  induction a as [| x a IH]; simpl; [reflexivity | now rewrite IH].
Qed.

Lemma append_nil_r (a : string) : a ++ "" = a.
Proof.
  induction a as [| x a IH]; simpl; [reflexivity | now rewrite IH].
Qed.

Lemma Substring_app_l (k a b : string) :
  Substring k a -> Substring k (a ++ b).
Proof.
  intros (pre & post & ->). exists pre, (post ++ b).
  now rewrite !append_assoc.
Qed.

Lemma Substring_app_r (k a b : string) :
  Substring k b -> Substring k (a ++ b).
Proof.
  intros (pre & post & ->). exists (a ++ pre), post.
  now rewrite !append_assoc.
Qed.

(** Two ways to cut one text: either the first piece of the one is inside
    the first piece of the other, or it runs over its end. *)
Lemma append_eq_split (k post a b : string) :
  k ++ post = a ++ b ->
  (exists r, a = k ++ r) \/ (exists r, k = a ++ r /\ b = r ++ post).
Proof.
  revert a. induction k as [| x k IH]; intros a H; simpl in H.
  - left. now exists a.
  - destruct a as [| y a]; simpl in H.
    + right. exists (String x k). now split.
    + injection H as -> H. destruct (IH a H) as [[r ->] | (r & -> & ->)].
      * left. now exists r.
      * right. now exists r.
Qed.

Lemma Substring_separated (k a b : string) :
  ~ Substring " " k ->
  Substring k (a ++ String " " b) -> Substring k a \/ Substring k b.
Proof.
  intros Hk (pre & post & H). revert a H.
  induction pre as [| x pre IH]; intros a H; simpl in H.
  - symmetry in H. destruct (append_eq_split _ _ _ _ H) as [[r ->] | (r & -> & Hr)].
    + left. now exists "", r.
    + destruct r as [| y r]; simpl in Hr.
      * left. exists "", "". simpl. now rewrite !append_nil_r.
      * injection Hr as <- _. exfalso. apply Hk. now exists a, r.
  - destruct a as [| y a]; simpl in H.
    + injection H as _ ->. right. now exists pre, post.
    + injection H as <- H. destruct (IH a H) as [(p & q & ->) | Hb].
      * left. now exists (String y p), q.
      * now right.
Qed.

Lemma row_text_fields (cols : list string) (row : list cell) :
  row_text cols row
  = lower (cell_str (row_get cols row "Route Description" (Str ""))) ++ " "
    ++ lower (cell_str (row_get cols row "Destination" (Str ""))) ++ " "
    ++ lower (cell_str (row_get cols row "Group Name" (Str ""))).
Proof.
  unfold row_text. cbn [String.concat]. rewrite !lower_app.
  change (lower " ") with " ". reflexivity.
Qed.

Lemma mentions_row_text (kws cols : list string) (row : list cell) :
  spaceless kws ->
  mentions kws (row_text cols row) <-> field_mentions kws cols row.
Proof.
  intros Hsp. rewrite row_text_fields. unfold field_mentions, text_fields.
  set (f1 := cell_str (row_get cols row "Route Description" (Str ""))).
  set (f2 := cell_str (row_get cols row "Destination" (Str ""))).
  set (f3 := cell_str (row_get cols row "Group Name" (Str ""))).
  split.
  - intros (kw & Hkw & Hsub).
    apply (Substring_separated _ _ _ (Hsp kw Hkw)) in Hsub.
    destruct Hsub as [H1 | Hsub].
    { exists f1. split; [simpl; tauto | now exists kw]. }
    apply (Substring_separated _ _ _ (Hsp kw Hkw)) in Hsub.
    destruct Hsub as [H2 | H3].
    + exists f2. split; [simpl; tauto | now exists kw].
    + exists f3. split; [simpl; tauto | now exists kw].
  - intros (field & Hin & kw & Hkw & Hsub). exists kw. split; [exact Hkw |].
    simpl in Hin. destruct Hin as [<- | [<- | [<- | []]]].
    + now apply Substring_app_l.
    + now apply Substring_app_r, Substring_app_r, Substring_app_l.
    + now do 4 apply Substring_app_r.
Qed.

Lemma keywords_spaceless :
  spaceless urban_keywords /\ spaceless leisure_keywords.
Proof.
  split; intros kw Hin Hsub; apply contains_Substring in Hsub; simpl in Hin;
    repeat (destruct Hin as [<- | Hin]; [vm_compute in Hsub; discriminate |]);
    contradiction.
Qed.

(** X11: the complexity of a row is decided field by field: it is 1 exactly
    when one of 'Route Description', 'Destination' and 'Group Name' holds an
    urban keyword in any letter case, whatever the other two hold, and -1
    exactly when none does and one holds a leisure keyword; joining the
    fields never makes a keyword of the end of one and the start of the
    next. *)
Theorem X11_complexity_field_by_field (cols : list string) (row : list cell) :
  (infer_complexity cols row = 1 <-> field_mentions urban_keywords cols row)
  /\ (infer_complexity cols row = -1 <->
      ~ field_mentions urban_keywords cols row
      /\ field_mentions leisure_keywords cols row)
  /\ (infer_complexity cols row = 0 <->
      ~ field_mentions urban_keywords cols row
      /\ ~ field_mentions leisure_keywords cols row).
Proof.
  destruct keywords_spaceless as [Hu Hl].
  pose proof (mentions_row_text urban_keywords cols row Hu) as Mu.
  pose proof (mentions_row_text leisure_keywords cols row Hl) as Ml.
  pose proof (existsb_contains urban_keywords (row_text cols row)) as Eu.
  pose proof (existsb_contains leisure_keywords (row_text cols row)) as El.
  rewrite <- Mu, <- Ml, <- Eu, <- El.
  unfold infer_complexity. cbv zeta.
  destruct (existsb _ urban_keywords); [| destruct (existsb _ leisure_keywords)];
    intuition (try discriminate; try congruence).
Qed.

Lemma infer_complexity_range (cols : list string) (row : list cell) :
  -1 <= infer_complexity cols row <= 1.
Proof.
  unfold infer_complexity. cbv zeta.
  destruct (existsb _ urban_keywords); [lia |].
  destruct (existsb _ leisure_keywords); lia.
Qed.

Lemma combine_map_self {A B : Type} (h : A -> B) (l : list A) :
  combine l (map h l) = map (fun x => (x, h x)) l.
Proof.
  induction l as [| x l IH]; simpl; [reflexivity | now rewrite IH].
Qed.

(** X12: under a parser that reads each departure on its own, the
    normalization keeps the order of the table and gives exactly one trip
    for each row whose booking is present and whose departure is read, with
    the date of the departure and the complexity of the row; every other
    row is dropped. *)
Theorem X12_one_trip_per_valid_row
    (to_datetime : list cell -> list (option Timestamp))
    (parse : cell -> option Timestamp) (df : DataFrame) (booking departure : nat) :
  (forall col, to_datetime col = map parse col) ->
  col_index "Booking ID" (columns df) = Some booking ->
  col_index "First Departure" (columns df) = Some departure ->
  load_dispatch to_datetime df
  = Ok (flat_map (trips_of_row parse (columns df) booking departure) (rows df)).
Proof.
  intros Hparse Hb Hd. unfold load_dispatch, getitem. rewrite Hb, Hd.
  cbn [bind]. f_equal. rewrite Hparse, map_map, combine_map_self.
  induction (rows df) as [| row l IH]; [reflexivity |].
  cbn [filter flat_map]. unfold trips_of_row at 1.
  destruct (notna (cell_at row booking)); [| exact IH].
  cbn [map filter snd].
  destruct (parse (cell_at row departure)) as [ts |];
    cbn [is_some map dropna fst snd app]; [f_equal |]; exact IH.
Qed.

(** X12 at a table of three rows: one is kept, one has no booking and one
    has a departure that is not a date. *)
Lemma X12_one_trip_per_valid_row_witness :
  load_dispatch iso_to_datetime
    (mkDataFrame ["Booking ID"; "First Departure"; "Destination"]
       [[Str "B-1"; Str "2023-01-06"; Str "Downtown NYC Tour"];
        [NA; Str "2023-01-07"; Str "Hershey Park"];
        [Str "B-3"; Str "not a date"; Str "Hershey Park"]])
  = Ok (flat_map
          (trips_of_row parse_iso_cell
             ["Booking ID"; "First Departure"; "Destination"] 0 1)
          [[Str "B-1"; Str "2023-01-06"; Str "Downtown NYC Tour"];
           [NA; Str "2023-01-07"; Str "Hershey Park"];
           [Str "B-3"; Str "not a date"; Str "Hershey Park"]]).
Proof.
  apply (X12_one_trip_per_valid_row iso_to_datetime parse_iso_cell
           (mkDataFrame ["Booking ID"; "First Departure"; "Destination"]
              [[Str "B-1"; Str "2023-01-06"; Str "Downtown NYC Tour"];
               [NA; Str "2023-01-07"; Str "Hershey Park"];
               [Str "B-3"; Str "not a date"; Str "Hershey Park"]]) 0 1);
    reflexivity.
Defined.

(** X13: whatever the parser of the departures, every trip that the
    normalization returns comes from a row of the table with a booking, and
    its complexity is -1, 0 or 1; there are no more trips than rows. *)
Theorem X13_trips_come_from_booked_rows
    (to_datetime : list cell -> list (option Timestamp)) (df : DataFrame)
    (trips : list Trip) :
  load_dispatch to_datetime df = Ok trips ->
  (List.length trips <= List.length (rows df))%nat
  /\ forall t, In t trips ->
       -1 <= Trip_Complexity t <= 1
       /\ exists row booking,
            In row (rows df)
            /\ col_index "Booking ID" (columns df) = Some booking
            /\ notna (cell_at row booking) = true
            /\ Trip_Complexity t = infer_complexity (columns df) row.
Proof.
  unfold load_dispatch, getitem. intros Hrun.
  destruct (col_index "Booking ID" (columns df)) as [i |]; [| discriminate].
  cbn [bind] in Hrun.
  destruct (col_index "First Departure" (columns df)) as [j |]; [| discriminate].
  cbn [bind] in Hrun. injection Hrun as <-.
  set (kept := filter (fun row => notna (cell_at row i)) (rows df)).
  set (stamps := to_datetime (map (fun row => cell_at row j) kept)).
  split.
  - assert (Hdrop : forall (A : Type) (l : list (option A)),
               (List.length (dropna l) <= List.length l)%nat).
    { intros A l. induction l as [| [a |] l IH]; simpl; lia. }
    eapply Nat.le_trans; [apply Hdrop |]. rewrite length_map.
    eapply Nat.le_trans; [apply filter_length_le |].
    rewrite length_combine.
    eapply Nat.le_trans; [apply Nat.le_min_l |]. apply filter_length_le.
  - intros t Ht.
    apply In_dropna, in_map_iff in Ht. destruct Ht as ([row ts] & Heq & Hin).
    apply filter_In in Hin. destruct Hin as [Hin _].
    apply in_combine_l, filter_In in Hin. destruct Hin as [Hin Hna].
    cbn [fst snd] in Heq. destruct ts as [ts |]; [| discriminate].
    injection Heq as <-. cbn [Trip_Complexity].
    split; [apply infer_complexity_range |].
    exists row, i. repeat split; assumption.
Qed.

(** X13 at the table with the booking and departure columns only. *)
Lemma X13_trips_come_from_booked_rows_witness :
  (List.length [mkTrip (mkDate 2023 1 6) 0]
   <= List.length (rows dispatch_without_text_columns))%nat
  /\ forall t, In t [mkTrip (mkDate 2023 1 6) 0] ->
       -1 <= Trip_Complexity t <= 1
       /\ exists row booking,
            In row (rows dispatch_without_text_columns)
            /\ col_index "Booking ID" (columns dispatch_without_text_columns)
               = Some booking
            /\ notna (cell_at row booking) = true
            /\ Trip_Complexity t
               = infer_complexity (columns dispatch_without_text_columns) row.
Proof.
  apply (X13_trips_come_from_booked_rows iso_to_datetime). reflexivity.
Defined.

(** ** Rounding and ratios *)

Lemma ratio_bounds (a b lo hi : Z) :
  0 < b -> lo * b <= a <= hi * b ->
  (inject_Z lo <= ratio a b)%Q /\ (ratio a b <= inject_Z hi)%Q.
Proof.
  intros Hb [Hlo Hhi]. unfold ratio.
  assert (Hb' : (0 < inject_Z b)%Q).
  { change 0%Q with (inject_Z 0). now rewrite <- Zlt_Qlt. }
  split.
  - rewrite Qred_correct. apply Qle_shift_div_l; [exact Hb' |].
    now rewrite <- inject_Z_mult, <- Zle_Qle.
  - rewrite Qred_correct. apply Qle_shift_div_r; [exact Hb' |].
    now rewrite <- inject_Z_mult, <- Zle_Qle.
Qed.

Lemma round_half_even_bounds (x : Q) (lo hi : Z) :
  (inject_Z lo <= x)%Q -> (x <= inject_Z hi)%Q ->
  lo <= round_half_even x <= hi.
Proof.
  intros Hlo Hhi.
  pose proof (Qfloor_resp_le _ _ Hlo) as Hf1.
  pose proof (Qfloor_resp_le _ _ Hhi) as Hf2.
  rewrite Qfloor_Z in Hf1, Hf2.
  pose proof (Qfloor_le x) as Hfx.
  unfold round_half_even. cbv zeta.
  set (f := Qfloor x) in *.
  assert (Hstep : (inject_Z f < x)%Q -> f + 1 <= hi).
  { intros H. assert (Hlt : (inject_Z f < inject_Z hi)%Q) by lra.
    rewrite <- Zlt_Qlt in Hlt. lia. }
  destruct (Qcompare_spec (x - inject_Z f) (1 # 2)) as [He | Hl | Hg].
  - assert (inject_Z f < x)%Q by lra. specialize (Hstep H).
    destruct (Z.even f); lia.
  - lia.
  - assert (inject_Z f < x)%Q by lra. specialize (Hstep H). lia.
Qed.

Lemma round2_bounds (x : Q) (lo hi : Z) :
  (inject_Z lo <= x)%Q -> (x <= inject_Z hi)%Q ->
  exists q, round2 (Finite x) = Finite q
            /\ (inject_Z lo <= q)%Q /\ (q <= inject_Z hi)%Q.
Proof.
  intros Hlo Hhi. cbn [round2]. eexists. split; [reflexivity |].
  destruct (round_half_even_bounds (x * 100) (lo * 100) (hi * 100))
    as [Hz1 Hz2].
  { rewrite inject_Z_mult. change (inject_Z 100) with 100%Q. lra. }
  { rewrite inject_Z_mult. change (inject_Z 100) with 100%Q. lra. }
  set (z := round_half_even (x * 100)) in *.
  rewrite Zle_Qle, inject_Z_mult in Hz1, Hz2.
  change (inject_Z 100) with 100%Q in Hz1, Hz2.
  rewrite Qred_correct. split.
  - apply Qle_shift_div_l; [reflexivity | exact Hz1].
  - apply Qle_shift_div_r; [reflexivity | exact Hz2].
Qed.

Lemma round2_exact (x : Q) (z : Z) :
  (x == inject_Z z)%Q -> round2 (Finite x) = Finite (Qred (inject_Z z)).
Proof.
  intros Hx. cbn [round2]. f_equal. apply Qred_complete.
  assert (Hr : round_half_even (x * 100) = z * 100).
  { unfold round_half_even. cbv zeta.
    assert (Hx100 : (x * 100 == inject_Z (z * 100))%Q).
    { rewrite inject_Z_mult, Hx. reflexivity. }
    rewrite (Qfloor_comp _ _ Hx100), Qfloor_Z.
    destruct (Qcompare_spec (x * 100 - inject_Z (z * 100)) (1 # 2))
      as [He | Hl | Hg]; [exfalso | reflexivity | exfalso]; lra. }
  rewrite Hr, inject_Z_mult. change (inject_Z 100) with 100%Q. field.
Qed.

(** ** The calendar *)

Lemma mapM_Raise {A B : Type} (f : A -> result B) (l : list A) (e : exn) :
  mapM f l = Raise e -> exists x, In x l /\ f x = Raise e.
Proof.
  induction l as [| x l IH]; cbn [mapM]; [discriminate |].
  destruct (f x) as [y |] eqn:Hfx; cbn [bind].
  - destruct (mapM f l) as [ys |]; cbn [bind]; [discriminate |].
    intros H. destruct (IH H) as (x' & Hx' & Hfx').
    exists x'. split; [now right | exact Hfx'].
  - intros H. exists x. split; [now left | congruence].
Qed.

Lemma mapM_ext {A B : Type} (f g : A -> result B) (l : list A) :
  (forall x, f x = g x) -> mapM f l = mapM g l.
Proof.
  intros H. induction l as [| x l IH]; cbn [mapM]; [reflexivity |].
  now rewrite H, IH.
Qed.

(** The rows of a calendar that is built, read back from the loop. *)
Lemma build_calendar_rows (y : Z) (m : dict) (trips : list Trip)
    (rows : list CalendarRow) :
  build_calendar y m trips = Ok rows ->
  exists mx,
    py_max (dict_values m) = Ok mx
    /\ 1 <= y <= 9999
    /\ forall r, In r rows ->
         exists d p, truediv (dict_get m (month d) (PyInt 0)) mx = Ok p
                     /\ r = row_of d p trips.
Proof.
  unfold build_calendar. intros Hrun.
  destruct (py_max (dict_values m)) as [mx |]; [| discriminate].
  cbn [bind] in Hrun. exists mx. split; [reflexivity |].
  destruct (datetime y 1 1) as [start |] eqn:Hstart; [| discriminate].
  cbn [bind] in Hrun. split.
  - unfold datetime in Hstart.
    destruct (1 <=? y) eqn:H1; [| discriminate].
    destruct (y <=? 9999) eqn:H2; [| discriminate].
    apply Z.leb_le in H1, H2. lia.
  - intros r Hr. destruct (mapM_In _ _ _ Hrun r Hr) as (i & _ & Hrow).
    rewrite calendar_row_eq in Hrow.
    destruct (add_days start (Z.of_nat i)) as [d |]; [| discriminate].
    cbn [bind] in Hrow.
    destruct (truediv (dict_get m (month d) (PyInt 0)) mx) as [p |] eqn:Hp;
      [| discriminate].
    cbn [bind] in Hrow. injection Hrow as <-. now exists d, p.
Qed.

Lemma calendar_rows_dates_inv (m : dict) (mx : pynum) (trips : list Trip)
    (start : date) :
  forall l s rows,
    dates_from start s l = true ->
    mapM (calendar_row m mx trips start) (seq s (List.length l)) = Ok rows ->
    map Full_Date rows = l.
Proof.
  induction l as [| d l IH]; intros s rows Hd Hrun.
  - simpl in Hrun. now injection Hrun as <-.
  - cbn [dates_from] in Hd. apply andb_true_iff in Hd. destruct Hd as [Hd Hl].
    cbn [List.length seq mapM] in Hrun. rewrite calendar_row_eq in Hrun.
    destruct (add_days start (Z.of_nat s)) as [d' |]; [| discriminate].
    apply date_eqb_eq in Hd. subst d'. cbn [bind] in Hrun.
    destruct (truediv _ mx) as [p |]; [| discriminate]. cbn [bind] in Hrun.
    destruct (mapM _ (seq (S s) (List.length l))) as [rows' |] eqn:Hrows;
      [| discriminate].
    cbn [bind] in Hrun. injection Hrun as <-. simpl.
    now rewrite (IH (S s) rows' Hl Hrows).
Qed.

Lemma build_calendar_dates (y : Z) (m : dict) (trips : list Trip)
    (rows : list CalendarRow) :
  2020 <= y <= 2100 ->
  build_calendar y m trips = Ok rows ->
  map Full_Date rows = calendar_days y.
Proof.
  intros Hy Hrun.
  destruct (year_checks_facts y (year_checks_target y Hy))
    as (Hlen & Hdates & _).
  unfold build_calendar in Hrun.
  destruct (py_max (dict_values m)) as [mx |]; [| discriminate].
  cbn [bind] in Hrun. rewrite datetime_jan1 in Hrun by lia.
  cbn [bind] in Hrun. rewrite <- Hlen in Hrun.
  now apply (calendar_rows_dates_inv m mx trips (mkDate y 1 1) _ 0%nat).
Qed.



Lemma strftime_A_next (a b : date) :
  toordinal b = toordinal a + 1 ->
  strftime_A b = next_weekday (strftime_A a).
Proof.
  intros H. unfold strftime_A. rewrite H.
  replace ((toordinal a + 1 + 6) mod 7)
    with (((toordinal a + 6) mod 7 + 1) mod 7)
    by (rewrite Zplus_mod_idemp_l; f_equal; lia).
  pose proof (Z.mod_pos_bound (toordinal a + 6) 7 eq_refl) as Hr.
  set (r := (toordinal a + 6) mod 7) in *.
  assert (Hcase : r = 0 \/ r = 1 \/ r = 2 \/ r = 3 \/ r = 4 \/ r = 5 \/ r = 6)
    by lia.
  destruct Hcase as [-> | [-> | [-> | [-> | [-> | [-> | ->]]]]]]; reflexivity.
Qed.

(** X15: in the calendar of a year from 2020 to 2100, the weekday of each
    row is the weekday after that of the row before it. *)
Theorem X15_weekdays_follow_the_week (year : Z) (monthly_totals : dict)
    (trips : list Trip) (rows : list CalendarRow) :
  2020 <= year <= 2100 ->
  build_calendar year monthly_totals trips = Ok rows ->
  forall i a b,
    nth_error rows i = Some a -> nth_error rows (S i) = Some b ->
    Row_Weekday b = next_weekday (Row_Weekday a).
Proof.
  intros Hy Hrun i a b Ha Hb.
  pose proof (build_calendar_dates _ _ _ _ Hy Hrun) as Hdates.
  destruct (year_checks_facts year (year_checks_target year Hy))
    as (_ & _ & Hchain & _).
  destruct (build_calendar_rows _ _ _ _ Hrun) as (mx & _ & _ & Hrows).
  destruct (Hrows a (nth_error_In _ _ Ha)) as (da & pa & _ & Hra).
  destruct (Hrows b (nth_error_In _ _ Hb)) as (db & pb & _ & Hrb).
  assert (Hord : toordinal (Full_Date b) = toordinal (Full_Date a) + 1).
  { apply (chain_ok_nth _ Hchain i); rewrite <- Hdates;
      now apply map_nth_error. }
  subst a b. cbn [row_of Row_Weekday Full_Date day_features Weekday] in *.
  now apply strftime_A_next.
Qed.

Lemma dict_get_find (d : dict) (k : Z) (default : pynum) :
  dict_get d k default
  = match dict_find d k with Some v => v | None => default end.
Proof.
  induction d as [| [k' v] d IH]; simpl; [reflexivity |].
  destruct (k' =? k); [reflexivity | exact IH].
Qed.

Lemma dict_find_In (d : dict) (k : Z) (v : pynum) :
  dict_find d k = Some v -> In (k, v) d.
Proof.
  induction d as [| [k' v'] d IH]; simpl; [discriminate |].
  destruct (Z.eqb_spec k' k) as [-> | _].
  - intros H. injection H as ->. now left.
  - intros H. right. now apply IH.
Qed.

Lemma py_max_bounds (m : dict) (mx : pynum) :
  py_max (dict_values m) = Ok mx ->
  In mx (dict_values m)
  /\ forall k v, In (k, v) m -> num_val v <= num_val mx.
Proof.
  unfold dict_values.
  destruct m as [| [k0 v0] m]; cbn [map snd py_max]; [discriminate |].
  intros H. injection H as <-.
  destruct (max_from_bounds (map snd m) v0) as (Hcur & Hall & Hmem).
  split; [exact Hmem |].
  intros k v [Heq | Hin].
  - injection Heq as _ <-. exact Hcur.
  - apply Hall. change v with (snd (k, v)). now apply in_map.
Qed.

Lemma truediv_value (a b : pynum) :
  num_val b <> 0 -> truediv a b = Ok (Finite (ratio (num_val a) (num_val b))).
Proof.
  intros Hb. unfold truediv.
  destruct a as [x | x], b as [y | y]; simpl in *;
    destruct (Z.eqb_spec y 0); try contradiction; reflexivity.
Qed.

(** X16: with totals that are not negative and one of them positive, the
    coach pressure of every row is a number between 0 and 1: exactly 0 on
    the days of a month that the map does not hold, and exactly 1 on the
    days of a month whose total is the largest. *)
Theorem X16_pressure_between_0_and_1 (year : Z) (monthly_totals : dict)
    (trips : list Trip) (rows : list CalendarRow) (r : CalendarRow) :
  build_calendar year monthly_totals trips = Ok rows ->
  (forall k v, In (k, v) monthly_totals -> 0 <= num_val v) ->
  valid_totals monthly_totals ->
  In r rows ->
  exists q,
    Row_Coach_Pressure r = Finite q
    /\ (0 <= q)%Q /\ (q <= 1)%Q
    /\ (dict_find monthly_totals (month (Full_Date r)) = None -> q = 0%Q)
    /\ (forall v, dict_find monthly_totals (month (Full_Date r)) = Some v ->
          (forall k x, In (k, x) monthly_totals -> num_val x <= num_val v) ->
          q = 1%Q).
Proof.
  intros Hrun Hnonneg Hvalid Hr.
  destruct (build_calendar_rows _ _ _ _ Hrun) as (mx & Hmax & _ & Hrows).
  destruct (Hrows r Hr) as (d & p & Hp & ->).
  destruct (py_max_valid _ Hvalid) as (mx' & Hmax' & Hpos).
  rewrite Hmax in Hmax'. injection Hmax' as <-.
  destruct (py_max_bounds _ _ Hmax) as [Hmem Hle].
  rewrite truediv_value in Hp by lia. injection Hp as <-.
  cbn [row_of Row_Coach_Pressure Full_Date].
  set (a := num_val (dict_get monthly_totals (month d) (PyInt 0))).
  assert (Ha : 0 <= a <= num_val mx).
  { unfold a. rewrite dict_get_find.
    destruct (dict_find monthly_totals (month d)) as [v |] eqn:Ef.
    - apply dict_find_In in Ef. split; [now apply (Hnonneg _ _ Ef) |].
      now apply (Hle _ _ Ef).
    - simpl. lia. }
  destruct (ratio_bounds a (num_val mx) 0 1 Hpos) as [Hq0 Hq1]; [lia |].
  destruct (round2_bounds _ 0 1 Hq0 Hq1) as (q & Hq & Hlo & Hhi).
  exists q. split; [exact Hq |]. split; [exact Hlo |]. split; [exact Hhi |].
  split.
  - intros Hnone. assert (Ha0 : a = 0).
    { unfold a. rewrite dict_get_find, Hnone. reflexivity. }
    rewrite (round2_exact _ 0) in Hq.
    + injection Hq as <-. reflexivity.
    + unfold ratio. rewrite Qred_correct, Ha0. apply Qmult_0_l.
  - intros v Hv Hbig. assert (Ha1 : a = num_val mx).
    { unfold a. rewrite dict_get_find, Hv.
      apply in_map_iff in Hmem. destruct Hmem as ([k x] & Hx & Hin).
      simpl in Hx. subst x. specialize (Hbig _ _ Hin).
      apply dict_find_In in Hv. specialize (Hle _ _ Hv). lia. }
    rewrite (round2_exact _ 1) in Hq.
    + injection Hq as <-. reflexivity.
    + unfold ratio. rewrite Qred_correct, Ha1. apply Qmult_inv_r.
      intros H0. unfold Qeq in H0. simpl in H0. lia.
Qed.

(** The first two rows of the calendar of the scenario. *)
Lemma scenario_calendar_rows :
  exists rows,
    build_calendar 2023 scenario_totals scenario_trips = Ok rows
    /\ nth_error rows 0 = Some scenario_new_year_row
    /\ nth_error rows 1
       = Some (row_of (mkDate 2023 1 2) (Finite 1) scenario_trips).
Proof.
  eexists. split; [vm_compute; reflexivity |]. split; reflexivity.
Qed.

Lemma scenario_totals_nonneg :
  forall k v, In (k, v) scenario_totals -> 0 <= num_val v.
Proof.
  intros k v H. simpl in H.
  repeat (destruct H as [H | H]; [injection H as <- <-; simpl; lia |]).
  contradiction.
Qed.

Lemma scenario_totals_valid : valid_totals scenario_totals.
Proof.
  exists 1, (PyInt 100). split; [simpl; tauto | simpl; lia].
Qed.

(** X16 at January 1 of the scenario, a day of the month with the largest
    total. *)
Lemma X16_pressure_between_0_and_1_witness :
  exists q,
    Row_Coach_Pressure scenario_new_year_row = Finite q
    /\ (0 <= q)%Q /\ (q <= 1)%Q
    /\ (dict_find scenario_totals (month (Full_Date scenario_new_year_row))
        = None -> q = 0%Q)
    /\ (forall v,
          dict_find scenario_totals (month (Full_Date scenario_new_year_row))
          = Some v ->
          (forall k x, In (k, x) scenario_totals -> num_val x <= num_val v) ->
          q = 1%Q).
Proof.
  destruct scenario_calendar_rows as (rows & Hrun & Hr0 & _).
  exact (X16_pressure_between_0_and_1 2023 scenario_totals scenario_trips rows
           scenario_new_year_row Hrun scenario_totals_nonneg
           scenario_totals_valid (nth_error_In _ _ Hr0)).
Defined.

Lemma chain_ok_tail (a : date) (l : list date) :
  chain_ok (a :: l) = true -> chain_ok l = true.
Proof.
  destruct l as [| b l]; [reflexivity |]. cbn [chain_ok].
  rewrite !andb_true_iff. tauto.
Qed.

Lemma chain_ok_increasing (l : list date) :
  forall a, chain_ok (a :: l) = true ->
  forall x, In x l -> toordinal a < toordinal x.
Proof.
  induction l as [| b l IH]; intros a Hc x Hx; [contradiction |].
  pose proof (chain_ok_tail _ _ Hc) as Hc'.
  cbn [chain_ok] in Hc. rewrite !andb_true_iff in Hc.
  destruct Hc as [[_ Hord] _]. apply Z.eqb_eq in Hord.
  destruct Hx as [<- | Hx]; [lia |].
  specialize (IH b Hc' x Hx). lia.
Qed.

Lemma chain_ok_NoDup (l : list date) : chain_ok l = true -> NoDup l.
Proof.
  induction l as [| a l IH]; intros Hc; constructor.
  - intros Ha. pose proof (chain_ok_increasing l a Hc a Ha). lia.
  - apply IH. now apply chain_ok_tail in Hc.
Qed.

Lemma sum_Z_indicator (x : date) (days : list date) :
  NoDup days ->
  sum_Z (map (fun d => if date_eqb x d then 1 else 0) days)
  = if existsb (date_eqb x) days then 1 else 0.
Proof.
  induction 1 as [| d days Hd _ IH]; simpl; [reflexivity |].
  rewrite IH. destruct (date_eqb x d) eqn:E; simpl; [| reflexivity].
  apply date_eqb_eq in E. subst d.
  destruct (existsb (date_eqb x) days) eqn:Ex; [| reflexivity].
  apply existsb_exists in Ex. destruct Ex as (y & Hy & Hxy).
  apply date_eqb_eq in Hxy. now subst y.
Qed.

Lemma sum_Z_trips_on (days : list date) (trips : list Trip) :
  NoDup days ->
  sum_Z (map (fun d => trips_on d trips) days)
  = Z.of_nat
      (List.length (filter (fun t => existsb (date_eqb (Date t)) days) trips)).
Proof.
  intros Hnd. unfold trips_on.
  induction trips as [| t trips IH]; cbn [filter].
  - clear Hnd. induction days as [| d days IHd]; simpl in *; [reflexivity | lia].
  - assert (Hstep :
      sum_Z (map (fun d => Z.of_nat (List.length
                   (if date_eqb (Date t) d
                    then t :: filter (fun t0 => date_eqb (Date t0) d) trips
                    else filter (fun t0 => date_eqb (Date t0) d) trips))) days)
      = sum_Z (map (fun d => if date_eqb (Date t) d then 1 else 0) days)
        + sum_Z (map (fun d => Z.of_nat (List.length
                   (filter (fun t0 => date_eqb (Date t0) d) trips))) days)).
    { clear. induction days as [| d days IHd]; simpl; [reflexivity |].
      rewrite IHd. destruct (date_eqb (Date t) d); cbn [List.length]; lia. }
    rewrite Hstep, IH, (sum_Z_indicator _ _ Hnd).
    destruct (existsb (date_eqb (Date t)) days); cbn [List.length]; lia.
Qed.

(** X17: in the calendar of a year from 2020 to 2100 the trip counts of the
    rows add up to the number of trips dated in that year: such a trip is
    counted on exactly one row, and a trip of another year on none. *)
Theorem X17_trips_counted_once (year : Z) (monthly_totals : dict)
    (trips : list Trip) (rows : list CalendarRow) :
  2020 <= year <= 2100 ->
  build_calendar year monthly_totals trips = Ok rows ->
  (forall r, In r rows ->
     Row_Trips_Scheduled r = trips_on (Full_Date r) trips)
  /\ sum_Z (map Row_Trips_Scheduled rows)
     = Z.of_nat (List.length (trips_in_year year trips)).
Proof.
  intros Hy Hrun.
  pose proof (build_calendar_dates _ _ _ _ Hy Hrun) as Hdates.
  destruct (year_checks_facts year (year_checks_target year Hy))
    as (_ & _ & Hchain & _).
  destruct (build_calendar_rows _ _ _ _ Hrun) as (mx & _ & _ & Hrows).
  assert (Hcount : forall r, In r rows ->
            Row_Trips_Scheduled r = trips_on (Full_Date r) trips).
  { intros r Hr. destruct (Hrows r Hr) as (d & p & _ & ->). reflexivity. }
  split; [exact Hcount |].
  rewrite (map_ext_in _ _ _ Hcount).
  rewrite <- (map_map Full_Date (fun d => trips_on d trips)), Hdates.
  unfold trips_in_year. apply sum_Z_trips_on. now apply chain_ok_NoDup.
Qed.

(** X17 at the scenario with a second trip, dated in 2024. *)
Lemma X17_trips_counted_once_witness :
  exists rows,
    build_calendar 2023 scenario_totals
      [mkTrip (mkDate 2023 1 6) 1; mkTrip (mkDate 2024 1 6) 0] = Ok rows
    /\ (forall r, In r rows ->
          Row_Trips_Scheduled r
          = trips_on (Full_Date r)
              [mkTrip (mkDate 2023 1 6) 1; mkTrip (mkDate 2024 1 6) 0])
    /\ sum_Z (map Row_Trips_Scheduled rows)
       = Z.of_nat
           (List.length
              (trips_in_year 2023
                 [mkTrip (mkDate 2023 1 6) 1; mkTrip (mkDate 2024 1 6) 0])).
Proof.
  destruct (build_calendar 2023 scenario_totals
              [mkTrip (mkDate 2023 1 6) 1; mkTrip (mkDate 2024 1 6) 0])
    as [rows | e] eqn:E.
  - exists rows. split; [reflexivity |].
    apply (X17_trips_counted_once 2023 scenario_totals _ rows); [lia | exact E].
  - exfalso. vm_compute in E. discriminate.
Defined.

Lemma filter_perm {A : Type} (f : A -> bool) (l l' : list A) :
  Permutation l l' -> Permutation (filter f l) (filter f l').
Proof.
  induction 1 as [| x l l' _ IH | x y l | l l' l'' _ IH1 _ IH2]; simpl.
  - constructor.
  - destruct (f x); [now constructor | exact IH].
  - destruct (f x), (f y); try apply Permutation_refl. apply perm_swap.
  - now apply Permutation_trans with (filter f l').
Qed.

Lemma series_mean_perm (l l' : list Z) :
  Permutation l l' -> series_mean l = series_mean l'.
Proof.
  intros H. unfold series_mean.
  rewrite (sum_perm _ _ H), (Permutation_length H).
  destruct l as [| x l], l' as [| x' l']; try reflexivity.
  - apply Permutation_nil in H. discriminate.
  - apply Permutation_sym, Permutation_nil in H. discriminate.
Qed.

Lemma day_features_perm (d : date) (p : npfloat) (trips trips' : list Trip) :
  Permutation trips trips' -> day_features d p trips = day_features d p trips'.
Proof.
  intros H. unfold day_features. cbv zeta.
  pose proof (filter_perm (fun t => date_eqb (Date t) d) _ _ H) as Hf.
  rewrite (Permutation_length Hf).
  now rewrite (series_mean_perm _ _ (Permutation_map Trip_Complexity Hf)).
Qed.

(** X18: the calendar does not depend on the order of the trips. *)
Theorem X18_trip_order_is_irrelevant (year : Z) (monthly_totals : dict)
    (trips trips' : list Trip) :
  Permutation trips trips' ->
  build_calendar year monthly_totals trips
  = build_calendar year monthly_totals trips'.
Proof.
  intros H. unfold build_calendar.
  destruct (py_max (dict_values monthly_totals)) as [mx |]; [| reflexivity].
  cbn [bind]. destruct (datetime year 1 1) as [start |]; [| reflexivity].
  cbn [bind]. apply mapM_ext. intros i. rewrite !calendar_row_eq.
  destruct (add_days start (Z.of_nat i)) as [d |]; [| reflexivity].
  cbn [bind]. destruct (truediv _ mx) as [p |]; [| reflexivity].
  cbn [bind]. unfold row_of. now rewrite (day_features_perm d p _ _ H).
Qed.

(** X18 at two trips of one day, exchanged. *)
Lemma X18_trip_order_is_irrelevant_witness :
  build_calendar 2023 scenario_totals
    [mkTrip (mkDate 2023 1 6) 1; mkTrip (mkDate 2023 1 6) (-1)]
  = build_calendar 2023 scenario_totals
      [mkTrip (mkDate 2023 1 6) (-1); mkTrip (mkDate 2023 1 6) 1].
Proof.
  apply X18_trip_order_is_irrelevant. apply perm_swap.
Defined.

Lemma sum_range (l : list Z) :
  Forall (fun x => -1 <= x <= 1) l ->
  - Z.of_nat (List.length l) <= fold_left Z.add l 0 <= Z.of_nat (List.length l).
Proof.
  induction 1 as [| x l Hx _ IH]; [simpl; lia |].
  cbn [fold_left List.length]. rewrite fold_left_add_shift. lia.
Qed.

(** X19: when every trip has a complexity of -1, 0 or 1, as the trips of
    the normalization have, the average complexity of every row is a number
    between -1 and 1. *)
Theorem X19_average_complexity_between_minus_1_and_1 (year : Z)
    (monthly_totals : dict) (trips : list Trip) (rows : list CalendarRow)
    (r : CalendarRow) :
  build_calendar year monthly_totals trips = Ok rows ->
  (forall t, In t trips -> -1 <= Trip_Complexity t <= 1) ->
  In r rows ->
  exists q, Avg_Trip_Complexity r = Finite q /\ (-1 <= q)%Q /\ (q <= 1)%Q.
Proof.
  intros Hrun Htrips Hr.
  destruct (build_calendar_rows _ _ _ _ Hrun) as (mx & _ & _ & Hrows).
  destruct (Hrows r Hr) as (d & p & _ & ->).
  cbn [row_of Avg_Trip_Complexity]. unfold day_features. cbv zeta.
  cbn [Avg_Complexity].
  set (today := filter (fun t => date_eqb (Date t) d) trips).
  destruct (Z.ltb_spec 0 (Z.of_nat (List.length today))) as [Hpos | Hzero].
  - assert (Hall : Forall (fun x => -1 <= x <= 1) (map Trip_Complexity today)).
    { apply Forall_forall. intros x Hx. apply in_map_iff in Hx.
      destruct Hx as (t & <- & Ht). apply Htrips.
      unfold today in Ht. now apply filter_In in Ht. }
    pose proof (sum_range _ Hall) as Hsum. rewrite length_map in Hsum.
    assert (Hmean : series_mean (map Trip_Complexity today)
                    = Finite (ratio (fold_left Z.add (map Trip_Complexity today) 0)
                                (Z.of_nat (List.length today)))).
    { rewrite <- (length_map Trip_Complexity today). unfold series_mean.
      destruct (map Trip_Complexity today) as [| x l] eqn:El; [| reflexivity].
      apply map_eq_nil in El. rewrite El in Hpos. simpl in Hpos. lia. }
    rewrite Hmean.
    destruct (ratio_bounds (fold_left Z.add (map Trip_Complexity today) 0)
                (Z.of_nat (List.length today)) (-1) 1 Hpos) as [Hlo Hhi];
      [lia |].
    exact (round2_bounds _ (-1) 1 Hlo Hhi).
  - exists 0%Q. split; [reflexivity |]. split; discriminate.
Qed.

(** X19 at January 1 of the scenario. *)
Lemma X19_average_complexity_witness :
  exists q, Avg_Trip_Complexity scenario_new_year_row = Finite q
            /\ (-1 <= q)%Q /\ (q <= 1)%Q.
Proof.
  destruct scenario_calendar_rows as (rows & Hrun & Hr0 & _).
  apply (X19_average_complexity_between_minus_1_and_1 2023 scenario_totals
           scenario_trips rows scenario_new_year_row Hrun);
    [| exact (nth_error_In _ _ Hr0)].
  intros t [<- | []]. simpl. lia.
Defined.

(** X15 at the first two rows of the calendar of the scenario. *)
Lemma X15_weekdays_follow_the_week_witness :
  Row_Weekday (row_of (mkDate 2023 1 2) (Finite 1) scenario_trips)
  = next_weekday (Row_Weekday scenario_new_year_row).
Proof.
  destruct scenario_calendar_rows as (rows & Hrun & Hr0 & Hr1).
  apply (X15_weekdays_follow_the_week 2023 scenario_totals scenario_trips rows
           ltac:(lia) Hrun 0%nat _ _ Hr0 Hr1).
Defined.

(** ** The pipeline of the handler *)

Lemma extract_loop_raise (header : list cell) (data : list (list cell))
    (months : list (string * Z)) (e : exn) :
  forall acc, extract_loop header data months acc = Raise e ->
  e = AttributeError \/ e = OverflowError.
Proof.
  induction months as [| [m c] months IH]; intros acc; cbn [extract_loop];
    [discriminate |].
  destruct (positions m header 0) as [| i [| i' ps]].
  - apply IH.
  - destruct (month_values data i) as [vals |] eqn:Ev; cbn [bind].
    + apply IH.
    + intros H. injection H as <-. right. now apply month_values_raise in Ev.
  - intros H. injection H as <-. now left.
Qed.

Lemma extract_values_numpy (tbn_df : list (list cell)) (totals : dict) :
  extract_monthly_totals tbn_df = Ok totals ->
  forall v, In v (dict_values totals) -> exists z, v = NpInt64 z.
Proof.
  unfold extract_monthly_totals.
  destruct (skipn 4 tbn_df) as [| header data]; [discriminate |].
  intros Hrun v Hv.
  destruct (extract_loop_keys header data month_map month_map_NoDup [] totals)
    as [_ Hvals]; [intros col _ [] | exact Hrun |].
  destruct (Hvals v Hv) as [[] | (z & -> & _)]. now exists z.
Qed.

Lemma load_dispatch_raise
    (to_datetime : list cell -> list (option Timestamp)) (df : DataFrame)
    (e : exn) :
  load_dispatch to_datetime df = Raise e -> e = KeyError.
Proof.
  unfold load_dispatch, getitem.
  destruct (col_index "Booking ID" (columns df)); cbn [bind]; [| congruence].
  destruct (col_index "First Departure" (columns df)); cbn [bind];
    [discriminate | congruence].
Qed.

Lemma truediv_numpy (a : pynum) (z : Z) :
  exists p, truediv a (NpInt64 z) = Ok p.
Proof.
  unfold truediv. destruct a; cbn [num_val]; destruct (z =? 0);
    eexists; reflexivity.
Qed.

Lemma build_calendar_raise_numpy (y : Z) (m : dict) (trips : list Trip)
    (e : exn) :
  (forall v, In v (dict_values m) -> exists z, v = NpInt64 z) ->
  build_calendar y m trips = Raise e ->
  e = ValueError \/ e = OverflowError.
Proof.
  intros Hnp. unfold build_calendar.
  destruct (py_max (dict_values m)) as [mx | e0] eqn:Hmax; cbn [bind].
  - assert (Hmx : exists z, mx = NpInt64 z).
    { apply Hnp. destruct (dict_values m) as [| x l]; [discriminate |].
      injection Hmax as <-.
      destruct (max_from_bounds l x) as (_ & _ & Hmem). exact Hmem. }
    destruct Hmx as [z ->].
    destruct (datetime y 1 1) as [start | e1] eqn:Hstart; cbn [bind].
    + intros Hrun. apply mapM_Raise in Hrun. destruct Hrun as (i & _ & Hrow).
      rewrite calendar_row_eq in Hrow. unfold add_days in Hrow.
      destruct ((1 <=? toordinal start + Z.of_nat i)
                && (toordinal start + Z.of_nat i <=? MAXORDINAL));
        cbn [bind] in Hrow; [| injection Hrow as <-; now right].
      destruct (truediv_numpy
                  (dict_get m (month (fromordinal (toordinal start + Z.of_nat i)))
                     (PyInt 0)) z) as [p Hp].
      rewrite Hp in Hrow. discriminate.
    + intros H. injection H as <-. left. unfold datetime in Hstart.
      destruct (_ && _) in Hstart; [discriminate | congruence].
  - intros H. injection H as <-. left.
    destruct (dict_values m); [cbn in Hmax; congruence | discriminate].
Qed.

(** X20: the only exceptions that the three calls of the handler raise are
    IndexError, AttributeError, OverflowError, KeyError and ValueError; as
    the totals they pass on are numpy integers, a pressure ratio never
    raises ZeroDivisionError there. *)
Theorem X20_pipeline_exceptions
    (to_datetime : list cell -> list (option Timestamp))
    (tbn_df : list (list cell)) (dispatch_df : DataFrame) (year : Z) (e : exn) :
  generate_calendar to_datetime tbn_df dispatch_df year = Raise e ->
  In e [IndexError; AttributeError; OverflowError; KeyError; ValueError]
  /\ e <> ZeroDivisionError.
Proof.
  intros Hrun.
  assert (Hin : In e [IndexError; AttributeError; OverflowError; KeyError;
                      ValueError]).
  { unfold generate_calendar in Hrun.
    destruct (extract_monthly_totals tbn_df) as [totals | e0] eqn:Hext;
      cbn [bind] in Hrun.
    - destruct (load_dispatch to_datetime dispatch_df) as [trips | e1] eqn:Hload;
        cbn [bind] in Hrun.
      + destruct (build_calendar_raise_numpy _ _ _ _
                    (extract_values_numpy _ _ Hext) Hrun) as [-> | ->];
          simpl; tauto.
      + injection Hrun as <-. apply load_dispatch_raise in Hload. subst e1.
        simpl; tauto.
    - injection Hrun as <-. unfold extract_monthly_totals in Hext.
      destruct (skipn 4 tbn_df) as [| header data].
      + injection Hext as <-. simpl; tauto.
      + destruct (extract_loop_raise _ _ _ _ _ Hext) as [-> | ->];
          simpl; tauto. }
  split; [exact Hin |]. intros ->. simpl in Hin.
  repeat (destruct Hin as [Hin | Hin]; [discriminate |]). contradiction.
Qed.

(** X20 at a summary of four rows. *)
Lemma X20_pipeline_exceptions_witness :
  In IndexError [IndexError; AttributeError; OverflowError; KeyError; ValueError]
  /\ IndexError <> ZeroDivisionError.
Proof.
  apply (X20_pipeline_exceptions iso_to_datetime
           [[Str "TBN Summary"]; [NA]; [Str "January"]; [Str "Trips: 12"]]
           dispatch_without_text_columns 2023).
  reflexivity.
Defined.

Lemma positions_nil (name : string) (header : list cell) :
  ~ In (Str name) header -> positions name header 0 = [].
Proof.
  intros H. pose proof (positions_length name header 0) as Hlen.
  pose proof (occurrences_pos name header) as Hpos.
  destruct (positions name header 0) as [| i ps]; [reflexivity |].
  simpl in Hlen. exfalso. apply H, Hpos. lia.
Qed.

Lemma extract_loop_no_month (header : list cell) (data : list (list cell))
    (months : list (string * Z)) :
  (forall name col, In (name, col) months -> ~ In (Str name) header) ->
  forall acc, extract_loop header data months acc = Ok acc.
Proof.
  induction months as [| [m c] months IH]; intros H acc; [reflexivity |].
  cbn [extract_loop]. rewrite (positions_nil m header).
  - apply IH. intros name col Hin. apply (H name col). now right.
  - apply (H m c). now left.
Qed.

(** X21: a summary whose header row names no month yields the empty map,
    and the handler then fails with the ValueError of the maximum of an
    empty map, for a dispatch table that has its two key columns. *)
Theorem X21_no_month_column
    (to_datetime : list cell -> list (option Timestamp))
    (tbn_df : list (list cell)) (header : list cell) (data : list (list cell))
    (dispatch_df : DataFrame) (year : Z) :
  skipn 4 tbn_df = header :: data ->
  (forall name col, In (name, col) month_map -> ~ In (Str name) header) ->
  In "Booking ID" (columns dispatch_df) ->
  In "First Departure" (columns dispatch_df) ->
  extract_monthly_totals tbn_df = Ok []
  /\ generate_calendar to_datetime tbn_df dispatch_df year = Raise ValueError.
Proof.
  intros Hskip Hnone Hb Hd.
  assert (Hext : extract_monthly_totals tbn_df = Ok []).
  { unfold extract_monthly_totals. rewrite Hskip.
    now apply extract_loop_no_month. }
  split; [exact Hext |]. unfold generate_calendar. rewrite Hext. cbn [bind].
  unfold load_dispatch.
  destruct (getitem_present _ _ Hb) as [i ->].
  destruct (getitem_present _ _ Hd) as [j ->]. reflexivity.
Qed.

(** X21 at a summary whose fifth row holds lower-case month names. *)
Lemma X21_no_month_column_witness :
  extract_monthly_totals
    [[Str "TBN Summary"]; [NA]; [Str "East"]; [NA]; [Str "january"];
     [Str "Trips: 12"]] = Ok []
  /\ generate_calendar iso_to_datetime
       [[Str "TBN Summary"]; [NA]; [Str "East"]; [NA]; [Str "january"];
        [Str "Trips: 12"]] dispatch_without_text_columns 2023
     = Raise ValueError.
Proof.
  apply (X21_no_month_column iso_to_datetime _ [Str "january"]
           [[Str "Trips: 12"]]).
  - reflexivity.
  - intros name col H [Heq | []]. simpl in H.
    repeat (destruct H as [H | H]; [injection H as <- <-; discriminate |]).
    contradiction.
  - simpl. tauto.
  - simpl. tauto.
Defined.

(** X22: for a year from 2020 to 2100 the handler obtains a calendar
    exactly when the extraction succeeds with at least one month in its map
    and the dispatch table has the columns 'Booking ID' and 'First
    Departure'; the calendar then has 366 rows in a leap year and 365
    otherwise. *)
Theorem X22_pipeline_success
    (to_datetime : list cell -> list (option Timestamp))
    (tbn_df : list (list cell)) (dispatch_df : DataFrame) (year : Z) :
  2020 <= year <= 2100 ->
  ((exists rows,
      generate_calendar to_datetime tbn_df dispatch_df year = Ok rows)
   <-> (exists totals,
          extract_monthly_totals tbn_df = Ok totals /\ totals <> []
          /\ In "Booking ID" (columns dispatch_df)
          /\ In "First Departure" (columns dispatch_df)))
  /\ (forall rows,
        generate_calendar to_datetime tbn_df dispatch_df year = Ok rows ->
        List.length rows = (if isleap year then 366%nat else 365%nat)).
Proof.
  intros Hy. unfold generate_calendar. split; [split |].
  - intros [rows Hrun].
    destruct (extract_monthly_totals tbn_df) as [totals |]; [| discriminate].
    cbn [bind] in Hrun. exists totals. split; [reflexivity |].
    destruct (load_dispatch to_datetime dispatch_df) as [trips |] eqn:Hload;
      [| discriminate].
    cbn [bind] in Hrun. split; [| split].
    + intros ->. discriminate.
    + destruct (in_dec string_dec "Booking ID" (columns dispatch_df))
        as [H | H]; [exact H |].
      unfold load_dispatch in Hload. rewrite (getitem_missing _ _ H) in Hload.
      discriminate.
    + destruct (in_dec string_dec "First Departure" (columns dispatch_df))
        as [H | H]; [exact H |].
      unfold load_dispatch in Hload. rewrite (getitem_missing _ _ H) in Hload.
      destruct (getitem dispatch_df "Booking ID"); discriminate.
  - intros (totals & Hext & Hne & Hb & Hd). rewrite Hext. cbn [bind].
    unfold load_dispatch.
    destruct (getitem_present _ _ Hb) as [i ->].
    destruct (getitem_present _ _ Hd) as [j ->]. cbn [bind].
    set (trips := dropna _).
    destruct (py_max (dict_values totals)) as [mx | e] eqn:Hmax.
    2:{ destruct totals; [contradiction | discriminate]. }
    destruct (extract_values_numpy _ _ Hext mx) as [z ->].
    { now apply py_max_bounds in Hmax. }
    destruct (build_calendar_target_year year totals (NpInt64 z) trips
                (fun _ => True) Hy Hmax) as (rows & Hrun & _).
    { intros mo. destruct (truediv_numpy (dict_get totals mo (PyInt 0)) z)
        as [p Hp]. now exists p. }
    now exists rows.
  - intros rows Hrun.
    destruct (extract_monthly_totals tbn_df) as [totals |]; [| discriminate].
    cbn [bind] in Hrun.
    destruct (load_dispatch to_datetime dispatch_df) as [trips |];
      [| discriminate].
    cbn [bind] in Hrun.
    pose proof (build_calendar_dates _ _ _ _ Hy Hrun) as Hdates.
    destruct (year_checks_facts year (year_checks_target year Hy))
      as (Hlen & _).
    rewrite <- Hlen, <- Hdates. now rewrite length_map.
Qed.

(** X22 at the year 2024. *)
Lemma X22_pipeline_success_witness :
  ((exists rows,
      generate_calendar iso_to_datetime header_only_summary
        dispatch_without_text_columns 2024 = Ok rows)
   <-> (exists totals,
          extract_monthly_totals header_only_summary = Ok totals
          /\ totals <> []
          /\ In "Booking ID" (columns dispatch_without_text_columns)
          /\ In "First Departure" (columns dispatch_without_text_columns)))
  /\ (forall rows,
        generate_calendar iso_to_datetime header_only_summary
          dispatch_without_text_columns 2024 = Ok rows ->
        List.length rows = (if isleap 2024 then 366%nat else 365%nat)).
Proof.
  apply X22_pipeline_success. lia.
Defined.
